(** * webhook-push: the platform layer of [webhook-push/index.js]

    A shallow embedding of the platform registry, the configuration
    resolver ([getConfig], [isConfigured], [getConfiguredPlatforms]),
    the URL builders and message formatters, [push], the progress
    templates, [pushProgress], the response handling of [sendRequest],
    and of the CLI its [parseArgs] and the branch [main] takes,
    followed by the properties established for them.

    Conventions.
    - A JavaScript string is a [string] (its UTF-8 bytes); [+:+] is
      concatenation, as in a template literal.
    - [process.env] is a [gmap string string]: a variable that is not
      set has no entry.  No name this module reads from [process.env]
      is a member name of [Object.prototype]
      ([env_names_not_inherited]), so a missing entry reads as
      [undefined].
    - The module's tables ([ENV_KEYS], [ENV_EXTRAS], [STATUS_STYLES],
      [buildWebhookUrl], [formatMessage]) are object literals.  The own properties of a literal are a
      [gmap]; a bracket lookup [table[name]] that finds no own property
      continues in [Object.prototype], see [obj_get].
    - A thrown [new Error(msg)] is the left injection [inl (Error msg)].
    - What the platform supplies ([JSON.parse], [JSON.stringify],
      [new URL], [toUpperCase], the transport, and the clock reading of
      [new Date().toISOString()]) is a section variable. *)

From Stdlib Require Import Ascii String ZArith Lia.
From stdpp Require Import base option list strings pretty gmap.

Open Scope string_scope.

(** ** Characters that cannot be written inside a string literal *)

Definition dq : string := String "034"%char EmptyString.
Definition nl : string := String "010"%char EmptyString.

(** ** JavaScript values of this module *)

(** The text [sub] occurs in [s]. *)
Definition contains (s sub : string) : Prop :=
  ∃ pre post, s = pre +:+ sub +:+ post.

(** Truthiness of a string: only the empty string is falsy. *)
Definition truthy_string (s : string) : bool :=
  match s with EmptyString => false | String _ _ => true end.

(** The members every object literal inherits from [Object.prototype]
    (Node.js): eleven functions and the [__proto__] accessor. *)
Definition Object_prototype_names : list string :=
  [ "constructor"; "__defineGetter__"; "__defineSetter__"; "hasOwnProperty";
    "__lookupGetter__"; "__lookupSetter__"; "isPrototypeOf";
    "propertyIsEnumerable"; "toString"; "valueOf"; "__proto__";
    "toLocaleString" ].

(** The result of a bracket lookup that is not [undefined]. *)
Inductive prop (A : Type) : Type :=
| Own (a : A)               (* an own property of the literal *)
| Inherited (name : string) (* the member [name] of [Object.prototype] *).
Arguments Own {A} a.
Arguments Inherited {A} name.

(** [table[name]]; [None] is [undefined]. *)
Definition obj_get {A : Type} (table : gmap string A) (name : string)
  : option (prop A) :=
  match table !! name with
  | Some a => Some (Own a)
  | None =>
      if bool_decide (name ∈ Object_prototype_names)
      then Some (Inherited name) else None
  end.

(** [String(v)] for an inherited member [v]: a native function prints as
    its source text, the prototype object reached by [__proto__] as
    [[object Object]]. *)
Definition inherited_to_string (name : string) : string :=
  if String.eqb name "__proto__" then "[object Object]"
  else "function "
       +:+ (if String.eqb name "constructor" then "Object" else name)
       +:+ "() { [native code] }".

(** [String(v)] for a lookup in one of the string-valued tables. *)
Definition to_string (v : option (prop string)) : string :=
  match v with
  | None => "undefined"
  | Some (Own s) => s
  | Some (Inherited name) => inherited_to_string name
  end.

(** Truthiness of a looked-up string property: functions and objects
    are truthy. *)
Definition truthy_prop (v : option (prop string)) : bool :=
  match v with
  | None => false
  | Some (Own s) => truthy_string s
  | Some (Inherited _) => true
  end.

(** Truthiness of [process.env[name]]. *)
Definition truthy_env (v : option string) : bool :=
  match v with
  | None => false
  | Some s => truthy_string s
  end.

(** ** Platform configuration *)

(** [PLATFORMS], in the order of the literal; [Object.values] follows it. *)
Definition PLATFORMS : list (string * string) :=
  [ ("WECOM", "wecom"); ("DINGTALK", "dingtalk"); ("FEISHU", "feishu");
    ("SLACK", "slack"); ("TELEGRAM", "telegram") ].

Definition Object_values (o : list (string * string)) : list string :=
  map snd o.

Definition ENV_KEYS : gmap string string :=
  <["wecom" := "WEBHOOK_WECOM_KEY"]>
  (<["dingtalk" := "WEBHOOK_DINGTALK_TOKEN"]>
  (<["feishu" := "WEBHOOK_FEISHU_TOKEN"]>
  (<["slack" := "WEBHOOK_SLACK_URL"]>
  (<["telegram" := "WEBHOOK_TELEGRAM_TOKEN"]> ∅)))).

Definition ENV_EXTRAS : gmap string string :=
  <["telegram" := "WEBHOOK_TELEGRAM_CHAT_ID"]> ∅.

Definition DEFAULT_PLATFORM : string := "wecom".

(** The platform identifiers, as [Object.values(PLATFORMS)] lists them. *)
Definition registry : list string :=
  [ "wecom"; "dingtalk"; "feishu"; "slack"; "telegram" ].

(** ** Configuration validation *)

Inductive error : Type :=
| Error (message : string)       (* [new Error(message)] of this module *)
| Foreign (description : string) (* an error object passed through as it is *).

Record Config : Type := { key : string; extra : option string }.

Definition unknown_platform_message (platform : string) : string :=
  "Unknown platform: " +:+ platform +:+ ". Supported platforms: "
  +:+ String.concat ", " (Object_values PLATFORMS).

Definition missing_key_message (envKey : string) : string :=
  "Missing environment variable: " +:+ envKey +:+ nl
  +:+ "Please set it in your .env file or environment." +:+ nl
  +:+ "Example: " +:+ envKey +:+ "=your-webhook-key-or-token".

Definition missing_extra_message (extraEnv platform : string) : string :=
  "Missing environment variable: " +:+ extraEnv +:+ nl
  +:+ "This is required for " +:+ platform +:+ " webhooks.".

(** [getConfig(platform)] under the environment [env].  [envKey] and
    [extraEnv] are used as property names of [process.env] and inside
    template literals, both of which convert them with [to_string];
    [key] and [extraValue] are strings where they are stored in the
    configuration, because they are truthy there. *)
Definition getConfig (env : gmap string string) (platform : string)
  : error + Config :=
  let envKey := obj_get ENV_KEYS platform in
  if negb (truthy_prop envKey) then
    inl (Error (unknown_platform_message platform))
  else
    let key := env !! to_string envKey in
    if negb (truthy_env key) then
      inl (Error (missing_key_message (to_string envKey)))
    else
      let extraEnv := obj_get ENV_EXTRAS platform in
      if truthy_prop extraEnv then
        let extraValue := env !! to_string extraEnv in
        if negb (truthy_env extraValue) then
          inl (Error (missing_extra_message (to_string extraEnv) platform))
        else
          inr {| key := default "" key; extra := extraValue |}
      else
        inr {| key := default "" key; extra := None |}.

(** [isConfigured(platform)]: the [try]/[catch] around [getConfig]. *)
Definition isConfigured (env : gmap string string) (platform : string) : bool :=
  match getConfig env platform with
  | inr _ => true
  | inl _ => false
  end.

(** [getConfiguredPlatforms()] *)
Definition getConfiguredPlatforms (env : gmap string string) : list string :=
  filter (λ p, isConfigured env p = true) (Object_values PLATFORMS).

(** The variable [name] is set to a non-empty value. *)
Definition is_set (env : gmap string string) (name : string) : Prop :=
  ∃ value, env !! name = Some value ∧ value ≠ "".

(** ** Progress status styles *)

Module Style.
Record t : Type := mk { color : string; emoji : string; wecom : string }.
End Style.

Definition style_started : Style.t := Style.mk "blue" "🚀" "info".
Definition style_in_progress : Style.t := Style.mk "yellow" "⏳" "warning".
Definition style_completed : Style.t := Style.mk "green" "✅" "info".
Definition style_failed : Style.t := Style.mk "red" "❌" "warning".
Definition style_cancelled : Style.t := Style.mk "grey" "⏹️" "comment".

Definition STATUS_STYLES : gmap string Style.t :=
  <["started" := style_started]>
  (<["in_progress" := style_in_progress]>
  (<["completed" := style_completed]>
  (<["failed" := style_failed]>
  (<["cancelled" := style_cancelled]> ∅)))).

(** The keys of [STATUS_STYLES]. *)
Definition status_kinds : list string :=
  [ "started"; "in_progress"; "completed"; "failed"; "cancelled" ].

(** [style.color], [style.emoji], [style.wecom]: the inherited members
    of [Object.prototype] have none of the three, the access is
    [undefined] ([None]). *)
Definition style_field (f : Style.t → string) (style : prop Style.t)
  : option string :=
  match style with
  | Own s => Some (f s)
  | Inherited _ => None
  end.

(** [${v}] inside a template literal. *)
Definition interp (v : option string) : string := default "undefined" v.

(** [STATUS_STYLES[status] || STATUS_STYLES.in_progress]: a style object
    and an inherited member are both truthy. *)
Definition style_for (status : string) : prop Style.t :=
  match obj_get STATUS_STYLES status with
  | Some style => style
  | None => Own style_in_progress
  end.

(** ** Push options *)

Module Options.
Record t : Type :=
  mk { platform : option string; title : option string; color : option string }.
End Options.

(** [o || d] for an optional string property. *)
Definition or_default (o : option string) (d : string) : string :=
  match o with
  | Some s => if truthy_string s then s else d
  | None => d
  end.

(** ** Platform-specific progress formatters *)

Section Progress.

(** [String.prototype.toUpperCase] *)
Variable toUpperCase : string → string.

(** [new Date().toISOString()] at the time of the call *)
Variable now : string.

Definition formatWeComProgress (taskName status details : string)
    (style : prop Style.t) : string :=
  let content :=
    "**" +:+ taskName +:+ "** - <font color=" +:+ dq
    +:+ interp (style_field Style.wecom style) +:+ dq +:+ ">"
    +:+ toUpperCase status +:+ "</font>" in
  let content :=
    if truthy_string details then content +:+ nl +:+ "> " +:+ details
    else content in
  content +:+ nl +:+ "> Time: " +:+ now.

Definition formatDingTalkProgress (taskName status details : string)
    (style : prop Style.t) : string :=
  let content :=
    "### " +:+ interp (style_field Style.emoji style) +:+ " " +:+ taskName
    +:+ nl +:+ nl in
  let content :=
    content +:+ "**Status:** " +:+ toUpperCase status +:+ nl +:+ nl in
  let content :=
    if truthy_string details then content +:+ "> " +:+ details +:+ nl +:+ nl
    else content in
  content +:+ "---" +:+ nl +:+ "*" +:+ now +:+ "*".

Definition formatFeishuProgress (taskName status details : string)
    (style : prop Style.t) : string :=
  let content := "**" +:+ taskName +:+ "**" +:+ nl in
  let content := content +:+ "Status: " +:+ toUpperCase status +:+ nl in
  let content :=
    if truthy_string details then content +:+ nl +:+ details +:+ nl
    else content in
  content +:+ nl +:+ "---" +:+ nl +:+ now.

Definition formatSlackProgress (taskName status details : string)
    (style : prop Style.t) : string :=
  let content :=
    interp (style_field Style.emoji style) +:+ " *" +:+ taskName
    +:+ "* - `" +:+ toUpperCase status +:+ "`" in
  let content :=
    if truthy_string details then content +:+ nl +:+ "> " +:+ details
    else content in
  content +:+ nl +:+ "_" +:+ now +:+ "_".

Definition formatTelegramProgress (taskName status details : string)
    (style : prop Style.t) : string :=
  let content :=
    interp (style_field Style.emoji style) +:+ " *" +:+ taskName
    +:+ "* - `" +:+ toUpperCase status +:+ "`" in
  let content :=
    if truthy_string details then content +:+ nl +:+ nl +:+ details
    else content in
  content +:+ nl +:+ nl +:+ "_" +:+ now +:+ "_".

Definition formatGenericProgress (taskName status details : string)
    (style : prop Style.t) : string :=
  let content :=
    interp (style_field Style.emoji style) +:+ " " +:+ taskName +:+ " - "
    +:+ toUpperCase status in
  let content :=
    if truthy_string details then content +:+ nl +:+ details
    else content in
  content +:+ nl +:+ now.

(** The [switch (platform)] of [pushProgress]: the content, and the
    state of the [options] object when the [switch] is left. *)
Definition formatProgress (platform taskName status details : string)
    (style : prop Style.t) (options : Options.t) : string * Options.t :=
  if String.eqb platform "wecom" then
    (formatWeComProgress taskName status details style, options)
  else if String.eqb platform "dingtalk" then
    (formatDingTalkProgress taskName status details style, options)
  else if String.eqb platform "feishu" then
    (formatFeishuProgress taskName status details style,
     Options.mk (Options.platform options) (Options.title options)
                (style_field Style.color style))
  else if String.eqb platform "slack" then
    (formatSlackProgress taskName status details style, options)
  else if String.eqb platform "telegram" then
    (formatTelegramProgress taskName status details style, options)
  else
    (formatGenericProgress taskName status details style, options).

(** ** [pushProgress] *)

(** The result type of [push] and [push(content, options)] itself. *)
Context {R : Type}.
Variable push : string → Options.t → R.

(** [pushProgress(taskName, status, details, options)].  The first
    component is the caller's [options] object when the call returns:
    the [switch] assigns to it, the spread [{ ...options, title }]
    builds a new object and leaves it alone. *)
Definition pushProgress (taskName status details : string)
    (options : Options.t) : Options.t * R :=
  let platform := or_default (Options.platform options) DEFAULT_PLATFORM in
  let style := style_for status in
  let '(content, options) :=
    formatProgress platform taskName status details style options in
  (options,
   push content
     (Options.mk (Options.platform options)
                 (Some (taskName +:+ " - " +:+ status))
                 (Options.color options))).

End Progress.

(** ** HTTP request helper *)

Inductive response (Json : Type) : Type :=
| Parsed (value : Json) (* the value of [JSON.parse(body)] *)
| Raw (raw : string)    (* the object [{ raw: body }] *).
Arguments Parsed {Json} value.
Arguments Raw {Json} raw.

(** How the promise of [sendRequest] settles. *)
Inductive settled (Json : Type) : Type :=
| Resolved (value : response Json)
| Rejected (reason : error).
Arguments Resolved {Json} value.
Arguments Rejected {Json} reason.

(** What the transport reports for the one request: the response with
    its status code and the chunks of its body, or an ['error'] event. *)
Inductive exchange : Type :=
| Completed (statusCode : Z) (chunks : list string)
| Failed (e : error).

Section Dispatcher.

Context {Json Url Payload : Type}.

(** [JSON.parse]; [None] when it throws. *)
Variable JSON_parse : string → option Json.
(** [JSON.stringify] *)
Variable JSON_stringify : Payload → string.
(** [new URL(url)]; [None] when it throws. *)
Variable URL_parse : string → option Url.
(** [protocol.request(options, callback)] with [write] and [end]:
    the exchange for the request to [urlObj] carrying [postData]. *)
Variable request : Url → string → exchange.

(** [res.on('data', (chunk) => body += chunk)] *)
Definition receive (chunks : list string) : string :=
  fold_left (λ body chunk, body +:+ chunk) chunks "".

(** [200 <= statusCode && statusCode < 300] *)
Definition is_success (statusCode : Z) : bool :=
  (200 <=? statusCode)%Z && (statusCode <? 300)%Z.

Definition http_error_message (statusCode : Z) (body : string) : string :=
  "HTTP " +:+ pretty statusCode +:+ ": " +:+ body.

(** The callback of [res.on('end', ...)]. *)
Definition on_end (statusCode : Z) (body : string) : settled Json :=
  match JSON_parse body with
  | Some response =>
      if is_success statusCode then Resolved (Parsed response)
      else Rejected (Error (http_error_message statusCode body))
  | None =>
      if is_success statusCode then Resolved (Raw body)
      else Rejected (Error (http_error_message statusCode body))
  end.

(** [sendRequest(url, data)] *)
Definition sendRequest (url : string) (data : Payload) : settled Json :=
  match URL_parse url with
  | None => Rejected (Foreign "TypeError: Invalid URL")
  | Some urlObj =>
      let postData := JSON_stringify data in
      match request urlObj postData with
      | Completed statusCode chunks => on_end statusCode (receive chunks)
      | Failed e => Rejected e
      end
  end.

End Dispatcher.

(** ** Blank strings *)

(** The ASCII white space: tab, line feed, vertical tab, form feed,
    carriage return and space. *)
Definition is_whitespace (c : ascii) : bool :=
  let n := nat_of_ascii c in
  ((9 <=? n)%nat && (n <=? 13)%nat) || (n =? 32)%nat.

Fixpoint blank (s : string) : bool :=
  match s with
  | EmptyString => true
  | String c s' => is_whitespace c && blank s'
  end.

(** ** Concrete stand-ins for the platform, used to run the definitions *)

(** Upper-casing of the ASCII letters. *)
Definition ascii_upper (c : ascii) : ascii :=
  let n := nat_of_ascii c in
  if (97 <=? n)%nat && (n <=? 122)%nat then ascii_of_nat (n - 32) else c.

Fixpoint toUpperCase_ascii (s : string) : string :=
  match s with
  | EmptyString => EmptyString
  | String c s' => String (ascii_upper c) (toUpperCase_ascii s')
  end.

(** A parser of the three JSON literals; every other text is rejected. *)
Definition JSON_parse_literal (s : string) : option (option bool) :=
  if String.eqb s "null" then Some None
  else if String.eqb s "true" then Some (Some true)
  else if String.eqb s "false" then Some (Some false)
  else None.

(** A transport that answers every request with the given response. *)
Definition answer (statusCode : Z) (chunks : list string)
  : string → string → exchange :=
  λ _ _, Completed statusCode chunks.

(** ** Webhook URL builders *)

(** [buildWebhookUrl]: each builder is called as
    [urlBuilder(config.key, config.extra)]; the second argument is
    [undefined] ([None]) when the configuration has no [extra]. *)
Definition buildWebhookUrl : gmap string (string → option string → string) :=
  <["wecom" := λ key _,
      "https://qyapi.weixin.qq.com/cgi-bin/webhook/send?key=" +:+ key]>
  (<["dingtalk" := λ token _,
      "https://oapi.dingtalk.com/robot/send?access_token=" +:+ token]>
  (<["feishu" := λ token _,
      "https://open.feishu.cn/open-apis/bot/v2/hook/" +:+ token]>
  (<["slack" := λ url _, url]>
  (<["telegram" := λ token chatId,
      "https://api.telegram.org/bot" +:+ token +:+ "/sendMessage?chat_id="
      +:+ interp chatId]> ∅)))).

(** ** Message formatters *)

(** The payload objects: strings, arrays, and objects with their
    properties in the order of the literal. *)
#[warnings="-register-all"] Inductive payload : Type :=
| PString (s : string)
| PArray (items : list payload)
| PObject (properties : list (string * payload)).

(** [formatMessage] *)
Definition formatMessage : gmap string (string → Options.t → payload) :=
  <["wecom" := λ content options,
      PObject [ ("msgtype", PString "markdown");
                ("markdown", PObject [ ("content", PString content) ]) ]]>
  (<["dingtalk" := λ content options,
      PObject [ ("msgtype", PString "markdown");
                ("markdown",
                 PObject [ ("title",
                            PString (or_default (Options.title options)
                                                "Notification"));
                           ("text", PString content) ]) ]]>
  (<["feishu" := λ content options,
      PObject [ ("msg_type", PString "interactive");
                ("card",
                 PObject
                   [ ("header",
                      PObject
                        [ ("title",
                           PObject
                             [ ("tag", PString "plain_text");
                               ("content",
                                PString (or_default (Options.title options)
                                                    "Notification")) ]);
                          ("template",
                           PString (or_default (Options.color options)
                                               "blue")) ]);
                     ("elements",
                      PArray [ PObject [ ("tag", PString "markdown");
                                         ("content", PString content) ] ]) ]) ]]>
  (<["slack" := λ content options,
      PObject [ ("blocks",
                 PArray [ PObject
                            [ ("type", PString "section");
                              ("text",
                               PObject [ ("type", PString "mrkdwn");
                                         ("text", PString content) ]) ] ]) ]]>
  (<["telegram" := λ content options,
      PObject [ ("text", PString content);
                ("parse_mode", PString "Markdown") ]]> ∅)))).

(** ** [push] *)

Section Push.

Context {Json Url : Type}.
Variable JSON_parse : string → option Json.
Variable JSON_stringify : payload → string.
Variable URL_parse : string → option Url.
Variable request : Url → string → exchange.

(** What the rest of [push] does when [buildWebhookUrl[platform]] and
    [formatMessage[platform]] are the member [name] of
    [Object.prototype]: the calls [urlBuilder(config.key, config.extra)]
    and [formatter(content, options)] run native code, and
    [sendRequest] receives their results. *)
Variable call_inherited : string → Config → string → Options.t → settled Json.

(** [push(content, options)] under the environment [env].  An
    exception inside the [async] function rejects its promise. *)
Definition push (env : gmap string string) (content : string)
    (options : Options.t) : settled Json :=
  let platform := or_default (Options.platform options) DEFAULT_PLATFORM in
  match getConfig env platform with
  | inl e => Rejected e
  | inr config =>
      match obj_get buildWebhookUrl platform with
      | Some (Own urlBuilder) =>
          let url := urlBuilder (key config) (extra config) in
          match obj_get formatMessage platform with
          | Some (Own formatter) =>
              let payload := formatter content options in
              sendRequest JSON_parse JSON_stringify URL_parse request
                url payload
          | Some (Inherited name) =>
              call_inherited name config content options
          | None =>
              Rejected (Foreign "TypeError: formatter is not a function")
          end
      | Some (Inherited name) => call_inherited name config content options
      | None => Rejected (Foreign "TypeError: urlBuilder is not a function")
      end
  end.

End Push.

(** The character [c] occurs in [s]. *)
Fixpoint has_char (c : ascii) (s : string) : bool :=
  match s with
  | EmptyString => false
  | String a s' => Ascii.eqb a c || has_char c s'
  end.

(** ** CLI argument parsing *)

(** [s.includes(sub)] *)
Fixpoint includes (sub s : string) : bool :=
  String.prefix sub s
  || match s with
     | EmptyString => false
     | String _ s' => includes sub s'
     end.

(** [s.split(sep)] for a separator of one character. *)
Fixpoint split (sep : ascii) (s : string) : list string :=
  match s with
  | EmptyString => [EmptyString]
  | String c s' =>
      if Ascii.eqb c sep then EmptyString :: split sep s'
      else match split sep s' with
           | piece :: pieces => String c piece :: pieces
           | [] => [String c EmptyString]
           end
  end.

(** [s.slice(n)], used on texts whose first [n] characters are dashes. *)
Fixpoint slice (n : nat) (s : string) : string :=
  match n, s with
  | O, _ => s
  | S n', String _ s' => slice n' s'
  | S _, EmptyString => EmptyString
  end.

(** The UTF-16 code units a byte of UTF-8 text starts: one for an ASCII
    byte and for the lead byte of a two- or three-byte sequence, two
    for the lead byte of a four-byte sequence, none for a continuation
    byte. *)
Definition code_units (c : ascii) : nat :=
  let n := nat_of_ascii c in
  if (n <? 128)%nat then 1
  else if (n <? 192)%nat then 0
  else if (n <? 240)%nat then 1
  else 2.

(** [s.length] *)
Fixpoint js_length (s : string) : nat :=
  match s with
  | EmptyString => 0
  | String c s' => code_units c + js_length s'
  end.

(** The value of a flag: [true], or the text given for it. *)
Inductive flag : Type :=
| FlagTrue
| FlagValue (value : string).

Record ParsedArgs : Type :=
  { flags : gmap string flag; positional : list string }.

(** [result.flags[key] = value] on the object literal [flags]: the
    assignment creates or overwrites an own property, except for the
    name [__proto__], whose inherited setter ignores a value that is
    not an object. *)
Definition set_flag (key : string) (value : flag) (result : ParsedArgs) : ParsedArgs :=
  {| flags := if String.eqb key "__proto__" then flags result
              else <[key := value]> (flags result);
     positional := positional result |}.

(** [result.positional.push(arg)] *)
Definition push_positional (arg : string) (result : ParsedArgs) : ParsedArgs :=
  {| flags := flags result; positional := positional result ++ [arg] |}.

(** [nextArg && !nextArg.startsWith('-')] *)
Definition is_flag_value (nextArg : string) : bool :=
  truthy_string nextArg && negb (String.prefix "-" nextArg).

(** The [for] loop of [parseArgs] from the argument at [i] on, where
    [args] is what is left from [i]; taking [nextArg] as the value of
    a flag is the [i++] inside the body. *)
Fixpoint parseArgs_loop (args : list string) (result : ParsedArgs) : ParsedArgs :=
  match args with
  | [] => result
  | arg :: rest =>
      if String.prefix "--" arg then
        if includes "=" arg then
          match split "="%char (slice 2 arg) with
          | key :: value :: _ =>
              parseArgs_loop rest (set_flag key (FlagValue value) result)
          | _ => parseArgs_loop rest result (* not reached, [split_includes] *)
          end
        else
          let key := slice 2 arg in
          match rest with
          | nextArg :: rest' =>
              if is_flag_value nextArg then
                parseArgs_loop rest' (set_flag key (FlagValue nextArg) result)
              else parseArgs_loop rest (set_flag key FlagTrue result)
          | [] => parseArgs_loop rest (set_flag key FlagTrue result)
          end
      else if String.prefix "-" arg && (js_length arg =? 2)%nat then
        let key := slice 1 arg in
        match rest with
        | nextArg :: rest' =>
            if is_flag_value nextArg then
              parseArgs_loop rest' (set_flag key (FlagValue nextArg) result)
            else parseArgs_loop rest (set_flag key FlagTrue result)
        | [] => parseArgs_loop rest (set_flag key FlagTrue result)
        end
      else parseArgs_loop rest (push_positional arg result)
  end.

(** [parseArgs(args)] *)
Definition parseArgs (args : list string) : ParsedArgs :=
  parseArgs_loop args {| flags := ∅; positional := [] |}.

(** The argument is neither a long flag nor a short flag. *)
Definition is_positional (arg : string) : bool :=
  negb (String.prefix "--" arg)
  && negb (String.prefix "-" arg && (js_length arg =? 2)%nat).

(** ** CLI main logic *)

(** Truthiness of [flags.name]. *)
Definition truthy_flag (v : option flag) : bool :=
  match v with
  | None => false
  | Some FlagTrue => true
  | Some (FlagValue s) => truthy_string s
  end.

(** [a || b] on two flag reads. *)
Definition flag_or (a b : option flag) : option flag :=
  if truthy_flag a then a else b.

(** [a || d] where [d] is a string literal. *)
Definition flag_or_else (a : option flag) (d : string) : flag :=
  match a with
  | Some v => if truthy_flag a then v else FlagValue d
  | None => FlagValue d
  end.

(** The [options] object [main] builds. *)
Record cli_options : Type :=
  { cli_platform : flag; cli_title : option flag }.

Definition validStatuses : list string :=
  [ "started"; "in_progress"; "completed"; "failed"; "cancelled" ].

(** [validStatuses.includes(status)]: strict equality, which [true]
    satisfies for no text. *)
Definition is_valid_status (status : flag) : bool :=
  match status with
  | FlagTrue => false
  | FlagValue s => bool_decide (s ∈ validStatuses)
  end.

(** The branch [main] takes: what it prints and exits with, or the call
    it awaits. *)
Inductive plan : Type :=
| ShowHelp                          (* [HELP_TEXT], exit 0 *)
| ShowVersion                       (* the version, exit 0 *)
| CheckConfiguration                (* the configuration status, exit 0 *)
| StatusRequired                    (* exit 1 *)
| InvalidStatus (status : flag)     (* exit 1 *)
| SendProgress (taskName status details : flag) (options : cli_options)
                                    (* [pushProgress(...)] *)
| NoMessage                         (* exit 1 *)
| SendMessage (message : string) (options : cli_options)
                                    (* [push(message, options)] *).

(** [main()] on the parsed arguments, up to the call it awaits. *)
Definition main_plan (parsed : ParsedArgs) : plan :=
  let flags := flags parsed in
  if truthy_flag (flag_or (flags !! "h") (flags !! "help")) then ShowHelp
  else if truthy_flag (flags !! "version") then ShowVersion
  else if truthy_flag (flags !! "check") then CheckConfiguration
  else
    let options :=
      {| cli_platform :=
           flag_or_else (flag_or (flags !! "p") (flags !! "platform")) "wecom";
         cli_title := flags !! "title" |} in
    if truthy_flag (flag_or (flags !! "t") (flags !! "task")) then
      let taskName :=
        flag_or_else (flag_or (flags !! "t") (flags !! "task")) "" in
      let status := flag_or (flags !! "s") (flags !! "status") in
      let details :=
        flag_or_else (flag_or (flags !! "d") (flags !! "details")) "" in
      if negb (truthy_flag status) then StatusRequired
      else
        let status := flag_or_else status "" in
        if negb (is_valid_status status) then InvalidStatus status
        else SendProgress taskName status details options
    else
      let message := String.concat " " (positional parsed) in
      if negb (truthy_string message) then NoMessage
      else SendMessage message options.

(** * Properties *)

(** ** Strings *)

Lemma app_cons (a : ascii) (s t : string) :
  String a s +:+ t = String a (s +:+ t).
Proof. reflexivity. Qed.

Lemma app_assoc (s t u : string) : (s +:+ t) +:+ u = s +:+ t +:+ u.
Proof.
  induction s as [|a s IH]; [reflexivity|].
  rewrite !app_cons. by rewrite IH.
Qed.

Lemma app_nil_r (s : string) : s +:+ "" = s.
Proof.
  induction s as [|a s IH]; [reflexivity|]. rewrite app_cons. by rewrite IH.
Qed.

Lemma length_app (s t : string) :
  String.length (s +:+ t) = String.length s + String.length t.
Proof.
  induction s as [|a s IH]; [reflexivity|].
  rewrite app_cons. simpl. by rewrite IH.
Qed.

Lemma contains_here (sub post : string) : contains (sub +:+ post) sub.
Proof. by exists "", post. Qed.

Lemma contains_end (pre sub : string) : contains (pre +:+ sub) sub.
Proof. exists pre, "". by rewrite app_nil_r. Qed.

Lemma contains_app_r (pre s sub : string) :
  contains s sub → contains (pre +:+ s) sub.
Proof.
  intros (a & b & ->). exists (pre +:+ a), b. by rewrite app_assoc.
Qed.

Lemma contains_app_l (s post sub : string) :
  contains s sub → contains (s +:+ post) sub.
Proof.
  intros (a & b & ->). exists a, (b +:+ post). by rewrite !app_assoc.
Qed.

Lemma truthy_string_false (s : string) : truthy_string s = false ↔ s = "".
Proof. by destruct s. Qed.

Lemma truthy_string_true (s : string) : truthy_string s = true ↔ s ≠ "".
Proof. by destruct s. Qed.

Lemma truthy_env_false (v : option string) :
  truthy_env v = false ↔ v = None ∨ v = Some "".
Proof.
  destruct v as [[|a s]|]; simpl; split; intros; try done; eauto.
  by destruct H.
Qed.

(** ** The registry *)

Lemma Object_values_PLATFORMS : Object_values PLATFORMS = registry.
Proof. reflexivity. Qed.

(** A closed string is not among the closed strings of a list. *)
Ltac not_in_list :=
  let H := fresh in
  intros H;
  repeat (apply elem_of_cons in H as [H|H]; [discriminate H|]);
  by apply elem_of_nil in H.

(** Evaluate the closed term [t] inside the goal. *)
Ltac eval_closed t :=
  let v := eval vm_compute in t in
  replace t with v by (vm_compute; reflexivity).

Lemma ENV_KEYS_lookup (platform : string) :
  ENV_KEYS !! platform =
    if decide (platform = "wecom") then Some "WEBHOOK_WECOM_KEY"
    else if decide (platform = "dingtalk") then Some "WEBHOOK_DINGTALK_TOKEN"
    else if decide (platform = "feishu") then Some "WEBHOOK_FEISHU_TOKEN"
    else if decide (platform = "slack") then Some "WEBHOOK_SLACK_URL"
    else if decide (platform = "telegram") then Some "WEBHOOK_TELEGRAM_TOKEN"
    else None.
Proof.
  unfold ENV_KEYS.
  repeat (rewrite lookup_insert;
          destruct (decide (_ = platform)) as [<-|?]; [reflexivity|];
          rewrite decide_False by congruence).
  apply lookup_empty.
Qed.

Lemma ENV_KEYS_Some (platform envKey : string) :
  ENV_KEYS !! platform = Some envKey →
  (platform, envKey) ∈
    [ ("wecom", "WEBHOOK_WECOM_KEY"); ("dingtalk", "WEBHOOK_DINGTALK_TOKEN");
      ("feishu", "WEBHOOK_FEISHU_TOKEN"); ("slack", "WEBHOOK_SLACK_URL");
      ("telegram", "WEBHOOK_TELEGRAM_TOKEN") ].
Proof.
  rewrite ENV_KEYS_lookup.
  repeat (case_decide; [intros [= <-]; subst; rewrite !elem_of_cons; tauto|]).
  done.
Qed.

Lemma ENV_KEYS_None (platform : string) :
  platform ∉ registry → ENV_KEYS !! platform = None.
Proof.
  intros Hp. rewrite ENV_KEYS_lookup.
  repeat (case_decide;
          [subst; exfalso; apply Hp; unfold registry;
           rewrite !elem_of_cons; tauto|]).
  done.
Qed.

Lemma ENV_EXTRAS_lookup (platform : string) :
  ENV_EXTRAS !! platform =
    if decide (platform = "telegram") then Some "WEBHOOK_TELEGRAM_CHAT_ID"
    else None.
Proof.
  unfold ENV_EXTRAS. rewrite lookup_insert.
  destruct (decide (_ = platform)) as [<-|Hp]; [reflexivity|].
  rewrite decide_False by congruence. apply lookup_empty.
Qed.

(** [getConfig] on a registered platform: the two lookups find own
    properties, and the names read from [process.env] are the
    registered ones. *)
Lemma getConfig_registered (env : gmap string string)
    (platform envKey : string) :
  ENV_KEYS !! platform = Some envKey →
  getConfig env platform =
    if negb (truthy_env (env !! envKey)) then
      inl (Error (missing_key_message envKey))
    else
      match ENV_EXTRAS !! platform with
      | Some extraEnv =>
          if negb (truthy_env (env !! extraEnv)) then
            inl (Error (missing_extra_message extraEnv platform))
          else inr {| key := default "" (env !! envKey);
                      extra := env !! extraEnv |}
      | None => inr {| key := default "" (env !! envKey); extra := None |}
      end.
Proof.
  intros H%ENV_KEYS_Some. unfold getConfig.
  repeat (apply elem_of_cons in H as [[= -> ->]|H]);
    [..|by apply elem_of_nil in H];
    match goal with
    | |- context [obj_get ENV_KEYS ?p] =>
        eval_closed (obj_get ENV_KEYS p); eval_closed (obj_get ENV_EXTRAS p);
        eval_closed (ENV_EXTRAS !! p)
    end; reflexivity.
Qed.

(** The names [getConfig] reads from [process.env]: the registered
    variable names and the texts of the inherited members, none of
    which is itself a member name of [Object.prototype]. *)
Lemma env_names_not_inherited (table : gmap string string) (platform : string) :
  table = ENV_KEYS ∨ table = ENV_EXTRAS →
  truthy_prop (obj_get table platform) = true →
  to_string (obj_get table platform) ∉ Object_prototype_names.
Proof.
  intros Ht. unfold obj_get.
  destruct (table !! platform) as [name|] eqn:Hl.
  - intros _. cbn [to_string].
    destruct Ht as [-> | ->].
    + apply ENV_KEYS_Some in Hl.
      repeat (apply elem_of_cons in Hl as [[= -> ->]|Hl]; [not_in_list|]).
      by apply elem_of_nil in Hl.
    + rewrite ENV_EXTRAS_lookup in Hl.
      case_decide; [|done]. injection Hl as <-. not_in_list.
  - destruct (bool_decide_reflect (platform ∈ Object_prototype_names))
      as [Hp|Hp]; [|done].
    intros _. cbn [to_string].
    repeat (apply elem_of_cons in Hp as [->|Hp];
            [vm_compute; not_in_list|]).
    by apply elem_of_nil in Hp.
Qed.

(** [getConfig] on a name that is neither registered nor inherited. *)
Lemma getConfig_unknown_platform (env : gmap string string)
    (platform : string) :
  platform ∉ registry → platform ∉ Object_prototype_names →
  getConfig env platform =
    inl (Error ("Unknown platform: " +:+ platform
                +:+ ". Supported platforms: wecom, dingtalk, feishu, slack, telegram")).
Proof.
  intros Hr Hp. unfold getConfig, obj_get.
  rewrite (ENV_KEYS_None _ Hr). by rewrite bool_decide_eq_false_2.
Qed.

Example getConfig_wecom :
  getConfig {[ "WEBHOOK_WECOM_KEY" := "test-key-123" ]} "wecom"
  = inr {| key := "test-key-123"; extra := None |}.
Proof. vm_compute. reflexivity. Qed.

Example getConfig_unknown :
  getConfig ∅ "unknown-x"
  = inl (Error "Unknown platform: unknown-x. Supported platforms: wecom, dingtalk, feishu, slack, telegram").
Proof.
  apply getConfig_unknown_platform;
    [unfold registry | unfold Object_prototype_names]; not_in_list.
Qed.

Example getConfig_constructor_set :
  getConfig {[ "function Object() { [native code] }" := "k" ]} "constructor"
  = inr {| key := "k"; extra := Some "k" |}.
Proof. vm_compute. reflexivity. Qed.

(** ** Configuration resolver *)

(** C3, at an inherited name.  ["constructor"] is not a platform
    identifier, yet [ENV_KEYS["constructor"]] is the function [Object]
    inherited from [Object.prototype], which is truthy: the guard
    [if (!envKey)] does not fire, and [getConfig] goes on to read the
    environment under the function's source text.  The error it throws
    is the missing-variable one, not the unknown-platform one, and its
    message lists no platform identifier. *)
Theorem getConfig_constructor_not_unknown_platform :
  ("constructor" ∉ Object_values PLATFORMS)
  ∧ getConfig ∅ "constructor"
    = inl (Error ("Missing environment variable: function Object() { [native code] }"
                  +:+ nl +:+ "Please set it in your .env file or environment."
                  +:+ nl +:+ "Example: function Object() { [native code] }=your-webhook-key-or-token"))
  ∧ getConfig ∅ "constructor"
    ≠ inl (Error ("Unknown platform: constructor. Supported platforms: "
                  +:+ "wecom, dingtalk, feishu, slack, telegram")).
Proof.
  split; [|split].
  - rewrite Object_values_PLATFORMS. unfold registry. not_in_list.
  - vm_compute. reflexivity.
  - vm_compute. discriminate.
Qed.

(** C4 as stated does not hold: with only Telegram's token set, the
    primary variable is set to a non-empty value and [getConfig] still
    throws. *)
Lemma getConfig_primary_alone_insufficient :
  ¬ (∀ (env : gmap string string) (platform envKey value : string),
        ENV_KEYS !! platform = Some envKey →
        env !! envKey = Some value → value ≠ "" →
        ∃ config, getConfig env platform = inr config ∧ key config = value).
Proof.
  intros H.
  destruct (H {[ "WEBHOOK_TELEGRAM_TOKEN" := "test-token" ]} "telegram"
              "WEBHOOK_TELEGRAM_TOKEN" "test-token")
    as (config & Hc & _);
    [vm_compute; reflexivity | vm_compute; reflexivity | discriminate |].
  vm_compute in Hc. discriminate.
Qed.

(** C4, amended.  For a registered platform with primary variable
    [envKey]: when [envKey] is unset or empty, [getConfig] throws the
    error that names [envKey] and tells how to set it; when [envKey] is
    set to a non-empty value, and so is the extra variable of the
    platform if it declares one, [getConfig] returns a configuration
    whose [key] is that value. *)
Theorem getConfig_primary_credential (env : gmap string string)
    (platform envKey : string) :
  ENV_KEYS !! platform = Some envKey →
  (env !! envKey = None ∨ env !! envKey = Some "" →
   getConfig env platform =
     inl (Error ("Missing environment variable: " +:+ envKey +:+ nl
                 +:+ "Please set it in your .env file or environment." +:+ nl
                 +:+ "Example: " +:+ envKey +:+ "=your-webhook-key-or-token")))
  ∧ (∀ value : string,
       env !! envKey = Some value → value ≠ "" →
       (∀ extraEnv, ENV_EXTRAS !! platform = Some extraEnv →
                    ∃ extraValue, env !! extraEnv = Some extraValue
                                  ∧ extraValue ≠ "") →
       ∃ config, getConfig env platform = inr config ∧ key config = value).
Proof.
  intros Hk. rewrite (getConfig_registered env _ _ Hk). split.
  - intros He%truthy_env_false. by rewrite He.
  - intros value Hv Hne Hextra. rewrite Hv. simpl.
    apply truthy_string_true in Hne as ->. simpl.
    destruct (ENV_EXTRAS !! platform) as [extraEnv|]; [|by eexists].
    destruct (Hextra extraEnv eq_refl) as (extraValue & -> & Hx).
    simpl. apply truthy_string_true in Hx as ->. simpl. by eexists.
Qed.

Lemma getConfig_primary_credential_witness :
  getConfig {[ "WEBHOOK_WECOM_KEY" := "" ]} "wecom"
  = inl (Error (missing_key_message "WEBHOOK_WECOM_KEY"))
  ∧ ∃ config, getConfig {[ "WEBHOOK_WECOM_KEY" := "test-key-123" ]} "wecom"
              = inr config ∧ key config = "test-key-123".
Proof.
  split.
  - apply (getConfig_primary_credential
             {[ "WEBHOOK_WECOM_KEY" := "" ]} "wecom" "WEBHOOK_WECOM_KEY");
      [vm_compute; reflexivity | right; vm_compute; reflexivity].
  - apply (getConfig_primary_credential
             {[ "WEBHOOK_WECOM_KEY" := "test-key-123" ]} "wecom"
             "WEBHOOK_WECOM_KEY");
      [vm_compute; reflexivity | vm_compute; reflexivity | discriminate |].
    intros extraEnv H. vm_compute in H. discriminate.
Defined.

(** The two missing-variable messages never coincide: the one for an
    extra variable of Telegram is shorter than any primary one. *)
Lemma missing_messages_distinct (envKey : string) :
  missing_extra_message "WEBHOOK_TELEGRAM_CHAT_ID" "telegram"
  ≠ missing_key_message envKey.
Proof.
  intros H. apply (f_equal String.length) in H. revert H.
  unfold missing_key_message. rewrite !length_app.
  eval_closed (String.length
    (missing_extra_message "WEBHOOK_TELEGRAM_CHAT_ID" "telegram")).
  simpl. lia.
Qed.

(** C5.  Telegram with its token set to a non-empty value: when the
    chat id is unset or empty, [getConfig] throws the error naming
    [WEBHOOK_TELEGRAM_CHAT_ID], whose message differs from every
    primary-credential message; when the chat id is set to a non-empty
    value, [getConfig] returns the token as [key] and the chat id as
    [extra]. *)
Theorem getConfig_telegram (env : gmap string string) (token : string) :
  env !! "WEBHOOK_TELEGRAM_TOKEN" = Some token → token ≠ "" →
  (env !! "WEBHOOK_TELEGRAM_CHAT_ID" = None
   ∨ env !! "WEBHOOK_TELEGRAM_CHAT_ID" = Some "" →
   ∃ message,
     getConfig env "telegram" = inl (Error message)
     ∧ message = "Missing environment variable: WEBHOOK_TELEGRAM_CHAT_ID"
                 +:+ nl +:+ "This is required for telegram webhooks."
     ∧ contains message "WEBHOOK_TELEGRAM_CHAT_ID"
     ∧ ∀ envKey, message ≠ missing_key_message envKey)
  ∧ (∀ chatId : string,
       env !! "WEBHOOK_TELEGRAM_CHAT_ID" = Some chatId → chatId ≠ "" →
       getConfig env "telegram" = inr {| key := token; extra := Some chatId |}).
Proof.
  intros Ht Hne.
  rewrite (getConfig_registered env "telegram" "WEBHOOK_TELEGRAM_TOKEN")
    by (vm_compute; reflexivity).
  rewrite Ht. simpl. apply truthy_string_true in Hne as ->. simpl.
  eval_closed (ENV_EXTRAS !! "telegram"). split.
  - intros He%truthy_env_false. rewrite He. simpl.
    eexists. split; [reflexivity|]. split; [reflexivity|]. split.
    + by exists "Missing environment variable: ",
                (nl +:+ "This is required for telegram webhooks.").
    + apply missing_messages_distinct.
  - intros chatId -> Hc. simpl. by apply truthy_string_true in Hc as ->.
Qed.

Lemma getConfig_telegram_witness :
  (∃ message,
     getConfig {[ "WEBHOOK_TELEGRAM_TOKEN" := "test-token" ]} "telegram"
     = inl (Error message)
     ∧ contains message "WEBHOOK_TELEGRAM_CHAT_ID")
  ∧ getConfig (<[ "WEBHOOK_TELEGRAM_CHAT_ID" := "-123456" ]>
                 {[ "WEBHOOK_TELEGRAM_TOKEN" := "test-token" ]}) "telegram"
    = inr {| key := "test-token"; extra := Some "-123456" |}.
Proof.
  split.
  - destruct (getConfig_telegram
                {[ "WEBHOOK_TELEGRAM_TOKEN" := "test-token" ]} "test-token")
      as [H _]; [vm_compute; reflexivity | discriminate |].
    destruct H as (message & H1 & _ & H3 & _);
      [left; vm_compute; reflexivity|]. eauto.
  - apply (getConfig_telegram
             (<[ "WEBHOOK_TELEGRAM_CHAT_ID" := "-123456" ]>
                {[ "WEBHOOK_TELEGRAM_TOKEN" := "test-token" ]}) "test-token");
      [vm_compute; reflexivity | discriminate
      | vm_compute; reflexivity | discriminate].
Defined.

(** C7.  [isConfigured] is a total boolean function that is [true]
    exactly when [getConfig] returns and [false] exactly when it
    throws; [getConfiguredPlatforms] keeps, in the order of the
    registry, exactly the registered identifiers on which
    [isConfigured] is [true]. *)
Theorem isConfigured_getConfiguredPlatforms (env : gmap string string) :
  (∀ platform,
     (isConfigured env platform = true
      ↔ ∃ config, getConfig env platform = inr config)
     ∧ (isConfigured env platform = false
        ↔ ∃ e, getConfig env platform = inl e))
  ∧ getConfiguredPlatforms env
    = filter (λ p, isConfigured env p = true)
        [ "wecom"; "dingtalk"; "feishu"; "slack"; "telegram" ]
  ∧ (∀ platform,
       platform ∈ getConfiguredPlatforms env
       ↔ platform ∈ [ "wecom"; "dingtalk"; "feishu"; "slack"; "telegram" ]
         ∧ isConfigured env platform = true)
  ∧ sublist (getConfiguredPlatforms env)
      [ "wecom"; "dingtalk"; "feishu"; "slack"; "telegram" ].
Proof.
  split; [|split; [|split]].
  - intros platform. unfold isConfigured.
    destruct (getConfig env platform) as [e|config]; split; split;
      try done; try (intros [? [=]]); eauto.
  - reflexivity.
  - intros platform. unfold getConfiguredPlatforms.
    rewrite list_elem_of_filter. rewrite Object_values_PLATFORMS.
    unfold registry. tauto.
  - unfold getConfiguredPlatforms. apply sublist_filter.
Qed.

Example getConfiguredPlatforms_wecom_slack :
  getConfiguredPlatforms
    (<[ "WEBHOOK_WECOM_KEY" := "test" ]>
       {[ "WEBHOOK_SLACK_URL" := "https://hooks.slack.com/test" ]})
  = [ "wecom"; "slack" ].
Proof. vm_compute. reflexivity. Qed.

(** ** Progress templates *)

Lemma STATUS_STYLES_lookup (status : string) :
  STATUS_STYLES !! status =
    if decide (status = "started") then Some style_started
    else if decide (status = "in_progress") then Some style_in_progress
    else if decide (status = "completed") then Some style_completed
    else if decide (status = "failed") then Some style_failed
    else if decide (status = "cancelled") then Some style_cancelled
    else None.
Proof.
  unfold STATUS_STYLES.
  repeat (rewrite lookup_insert;
          destruct (decide (_ = status)) as [<-|?]; [reflexivity|];
          rewrite decide_False by congruence).
  apply lookup_empty.
Qed.

(** The fallback of [pushProgress] on a status that is neither a status
    kind nor an inherited name. *)
Lemma style_for_fallback (status : string) :
  status ∉ status_kinds → status ∉ Object_prototype_names →
  style_for status = Own style_in_progress.
Proof.
  intros Hs Hp. unfold style_for, obj_get. rewrite STATUS_STYLES_lookup.
  repeat (case_decide;
          [subst; exfalso; apply Hs; unfold status_kinds;
           rewrite !elem_of_cons; tauto|]).
  by rewrite bool_decide_eq_false_2.
Qed.

(** On an inherited name the lookup is truthy and no fallback happens. *)
Lemma style_for_inherited (status : string) :
  status ∈ Object_prototype_names → style_for status = Inherited status.
Proof.
  intros Hp. unfold style_for, obj_get.
  assert (STATUS_STYLES !! status = None) as ->.
  { rewrite STATUS_STYLES_lookup.
    repeat (case_decide; [subst; exfalso; revert Hp; not_in_list|]). done. }
  by rewrite bool_decide_eq_true_2.
Qed.

Section ProgressProperties.

Variable toUpperCase : string → string.
Variable now : string.

(** The [switch] never touches [options.platform] or [options.title]. *)
Lemma formatProgress_options platform taskName status details style options :
  let options' :=
    (formatProgress toUpperCase now platform taskName status details style
       options).2 in
  Options.platform options' = Options.platform options
  ∧ Options.title options' = Options.title options
  ∧ options' =
      if String.eqb platform "feishu"
      then Options.mk (Options.platform options) (Options.title options)
                      (style_field Style.color style)
      else options.
Proof.
  unfold formatProgress.
  destruct (String.eqb_spec platform "wecom") as [->|?]; [done|].
  destruct (String.eqb_spec platform "dingtalk") as [->|?]; [done|].
  destruct (String.eqb_spec platform "feishu") as [->|?]; [done|].
  destruct (String.eqb_spec platform "slack") as [->|?]; [done|].
  by destruct (String.eqb_spec platform "telegram") as [->|?].
Qed.

(** Every template renders the upper-cased status text. *)
Lemma formatProgress_renders_status platform taskName status details style
    options :
  contains
    (formatProgress toUpperCase now platform taskName status details style
       options).1
    (toUpperCase status).
Proof.
  unfold formatProgress.
  repeat (match goal with |- context [String.eqb ?a ?b] =>
                            destruct (String.eqb a b) end);
    cbn [fst];
    unfold formatWeComProgress, formatDingTalkProgress, formatFeishuProgress,
      formatSlackProgress, formatTelegramProgress, formatGenericProgress;
    destruct (truthy_string details); rewrite ?app_assoc;
    repeat (first [apply contains_here | apply contains_end
                  | apply contains_app_r]).
Qed.

(** Every template renders a non-empty details text, white space
    included. *)
Lemma formatProgress_renders_details platform taskName status details style
    options :
  details ≠ "" →
  contains
    (formatProgress toUpperCase now platform taskName status details style
       options).1
    details.
Proof.
  intros Hd%truthy_string_true. unfold formatProgress.
  repeat (match goal with |- context [String.eqb ?a ?b] =>
                            destruct (String.eqb a b) end);
    cbn [fst];
    unfold formatWeComProgress, formatDingTalkProgress, formatFeishuProgress,
      formatSlackProgress, formatTelegramProgress, formatGenericProgress;
    rewrite Hd, ?app_assoc;
    repeat (first [apply contains_here | apply contains_app_r]).
Qed.

(** C2, amended.  With the empty string as details, each of the six
    templates is its status part followed directly by its timestamp
    part: no details block, no empty line and no block-quote prefix in
    between; and the [switch] of [pushProgress] yields one of these six
    texts for every platform. *)
Theorem formatProgress_empty_details taskName status style :
  formatWeComProgress toUpperCase now taskName status "" style
  = "**" +:+ taskName +:+ "** - <font color=" +:+ dq
    +:+ interp (style_field Style.wecom style) +:+ dq +:+ ">"
    +:+ toUpperCase status +:+ "</font>" +:+ nl +:+ "> Time: " +:+ now
  ∧ formatDingTalkProgress toUpperCase now taskName status "" style
    = "### " +:+ interp (style_field Style.emoji style) +:+ " " +:+ taskName
      +:+ nl +:+ nl +:+ "**Status:** " +:+ toUpperCase status +:+ nl +:+ nl
      +:+ "---" +:+ nl +:+ "*" +:+ now +:+ "*"
  ∧ formatFeishuProgress toUpperCase now taskName status "" style
    = "**" +:+ taskName +:+ "**" +:+ nl +:+ "Status: " +:+ toUpperCase status
      +:+ nl +:+ nl +:+ "---" +:+ nl +:+ now
  ∧ formatSlackProgress toUpperCase now taskName status "" style
    = interp (style_field Style.emoji style) +:+ " *" +:+ taskName
      +:+ "* - `" +:+ toUpperCase status +:+ "`" +:+ nl +:+ "_" +:+ now +:+ "_"
  ∧ formatTelegramProgress toUpperCase now taskName status "" style
    = interp (style_field Style.emoji style) +:+ " *" +:+ taskName
      +:+ "* - `" +:+ toUpperCase status +:+ "`" +:+ nl +:+ nl
      +:+ "_" +:+ now +:+ "_"
  ∧ formatGenericProgress toUpperCase now taskName status "" style
    = interp (style_field Style.emoji style) +:+ " " +:+ taskName +:+ " - "
      +:+ toUpperCase status +:+ nl +:+ now
  ∧ ∀ platform options,
      (formatProgress toUpperCase now platform taskName status "" style
         options).1
      ∈ [ formatWeComProgress toUpperCase now taskName status "" style;
          formatDingTalkProgress toUpperCase now taskName status "" style;
          formatFeishuProgress toUpperCase now taskName status "" style;
          formatSlackProgress toUpperCase now taskName status "" style;
          formatTelegramProgress toUpperCase now taskName status "" style;
          formatGenericProgress toUpperCase now taskName status "" style ].
Proof.
  repeat (split;
    [unfold formatWeComProgress, formatDingTalkProgress, formatFeishuProgress,
       formatSlackProgress, formatTelegramProgress, formatGenericProgress;
     cbn [truthy_string]; rewrite !app_assoc; reflexivity|]).
  intros platform options. unfold formatProgress.
  repeat (match goal with |- context [String.eqb ?a ?b] =>
                            destruct (String.eqb a b) end);
    cbn [fst]; rewrite !elem_of_cons; tauto.
Qed.

(** C6, at an inherited name.  ["constructor"] is not a status kind,
    yet [STATUS_STYLES["constructor"]] is the function [Object], which
    is truthy: [||] does not fall back to [STATUS_STYLES.in_progress].
    The function has no [wecom], [emoji] or [color]; the WeCom template
    prints [undefined] where the [in_progress] style has [warning], and
    for Feishu the color written to [options] is [undefined] instead of
    [yellow]. *)
Theorem pushProgress_constructor_status {R : Type}
    (push : string → Options.t → R) :
  ("constructor" ∉ status_kinds)
  ∧ style_for "constructor" = Inherited "constructor"
  ∧ pushProgress toUpperCase now push "Build" "constructor" ""
      (Options.mk (Some "wecom") None None)
    = (Options.mk (Some "wecom") None None,
       push ("**Build** - <font color=" +:+ dq +:+ "undefined" +:+ dq +:+ ">"
             +:+ toUpperCase "constructor" +:+ "</font>" +:+ nl
             +:+ "> Time: " +:+ now)
            (Options.mk (Some "wecom") (Some "Build - constructor") None))
  ∧ formatWeComProgress toUpperCase now "Build" "constructor" ""
      (Own style_in_progress)
    = "**Build** - <font color=" +:+ dq +:+ "warning" +:+ dq +:+ ">"
      +:+ toUpperCase "constructor" +:+ "</font>" +:+ nl
      +:+ "> Time: " +:+ now
  ∧ (pushProgress toUpperCase now push "Build" "constructor" ""
       (Options.mk (Some "feishu") None (Some "red"))).1
    = Options.mk (Some "feishu") None None.
Proof.
  assert (style_for "constructor" = Inherited "constructor") as Hs
    by (vm_compute; reflexivity).
  split; [unfold status_kinds; not_in_list|]. split; [exact Hs|].
  unfold pushProgress. rewrite Hs.
  split; [|split].
  - cbn [or_default truthy_string Options.platform DEFAULT_PLATFORM].
    unfold formatProgress. cbn [String.eqb Ascii.eqb Bool.eqb].
    unfold formatWeComProgress. cbn [truthy_string style_field interp default].
    rewrite !app_assoc. reflexivity.
  - unfold formatWeComProgress.
    cbn [truthy_string style_field interp default from_option
         Style.wecom style_in_progress].
    rewrite !app_assoc. reflexivity.
  - reflexivity.
Qed.

(** C9.  The arguments [pushProgress] hands to [push] do not depend on
    [push], and the options among them carry the title
    [taskName - status] whatever title the caller supplied; the result
    of [pushProgress] is the result of that call. *)
Theorem pushProgress_title taskName status details options :
  ∃ (content : string) (color : option string) (caller : Options.t),
    ∀ (R : Type) (push : string → Options.t → R),
      pushProgress toUpperCase now push taskName status details options
      = (caller,
         push content
           (Options.mk (Options.platform options)
                       (Some (taskName +:+ " - " +:+ status)) color)).
Proof.
  pose proof (formatProgress_options
                (or_default (Options.platform options) DEFAULT_PLATFORM)
                taskName status details (style_for status) options)
    as (Hp & _ & _).
  unfold pushProgress.
  destruct (formatProgress _ _ _ _ _ _ _ _) as [content options'].
  cbn [snd] in Hp. rewrite Hp.
  by exists content, (Options.color options'), options'.
Qed.

(** C10.  When [pushProgress] returns, the caller's options object is
    unchanged unless the platform is [feishu]; for [feishu] its color
    is [style.color] of the selected style, whatever color the caller
    passed, and its other fields are unchanged.  For a status kind of
    the table that is the kind's color. *)
Theorem pushProgress_options_color {R : Type} (push : string → Options.t → R)
    taskName status details options :
  let platform := or_default (Options.platform options) DEFAULT_PLATFORM in
  let caller :=
    (pushProgress toUpperCase now push taskName status details options).1 in
  (platform = "feishu" →
   caller = Options.mk (Options.platform options) (Options.title options)
                       (style_field Style.color (style_for status))
   ∧ ∀ style, STATUS_STYLES !! status = Some style →
              Options.color caller = Some (Style.color style))
  ∧ (platform ≠ "feishu" → caller = options).
Proof.
  intros platform caller.
  pose proof (formatProgress_options platform taskName status details
                (style_for status) options) as (_ & _ & Ho).
  assert (caller = (formatProgress toUpperCase now platform taskName status
                      details (style_for status) options).2) as ->.
  { unfold caller, pushProgress. fold platform.
    by destruct (formatProgress _ _ _ _ _ _ _ _). }
  cbn zeta in Ho. rewrite Ho. split.
  - intros ->. split; [reflexivity|].
    intros style Hs. cbn [String.eqb Ascii.eqb Bool.eqb Options.color].
    unfold style_for, obj_get. by rewrite Hs.
  - intros Hne. by destruct (String.eqb_spec platform "feishu").
Qed.

End ProgressProperties.

(** C2 as stated does not hold: a single space is blank, and WeCom's
    template renders it as a block-quote line of its own. *)
Lemma formatProgress_blank_details_rendered :
  ¬ (∀ (toUpperCase : string → string)
       (now platform taskName status details : string)
       (style : prop Style.t) (options : Options.t),
        blank details = true →
        (formatProgress toUpperCase now platform taskName status details
           style options).1
        = (formatProgress toUpperCase now platform taskName status ""
             style options).1).
Proof.
  intros H.
  specialize (H toUpperCase_ascii "T" "wecom" "Build" "started" " "
                (Own style_started) (Options.mk None None None) eq_refl).
  vm_compute in H. discriminate H.
Qed.

Example formatWeComProgress_blank_details :
  formatWeComProgress toUpperCase_ascii "T" "Build" "started" " "
    (Own style_started)
  = "**Build** - <font color=" +:+ dq +:+ "info" +:+ dq +:+ ">STARTED</font>"
    +:+ nl +:+ ">  " +:+ nl +:+ "> Time: T".
Proof. vm_compute. reflexivity. Qed.

Lemma pushProgress_options_color_witness :
  (pushProgress toUpperCase_ascii "T" pair "Build" "completed" "ok"
     (Options.mk (Some "feishu") (Some "mine") (Some "red"))).1
  = Options.mk (Some "feishu") (Some "mine") (Some "green")
  ∧ (pushProgress toUpperCase_ascii "T" pair "Build" "completed" "ok"
       (Options.mk (Some "slack") (Some "mine") (Some "red"))).1
    = Options.mk (Some "slack") (Some "mine") (Some "red").
Proof.
  split.
  - destruct (pushProgress_options_color toUpperCase_ascii "T" pair
                "Build" "completed" "ok"
                (Options.mk (Some "feishu") (Some "mine") (Some "red")))
      as [H _].
    destruct H as [H _]; [reflexivity|]. exact H.
  - destruct (pushProgress_options_color toUpperCase_ascii "T" pair
                "Build" "completed" "ok"
                (Options.mk (Some "slack") (Some "mine") (Some "red")))
      as [_ H].
    apply H. discriminate.
Defined.

(** ** HTTP dispatcher *)

Lemma is_success_true (statusCode : Z) :
  is_success statusCode = true ↔ (200 ≤ statusCode < 300)%Z.
Proof. unfold is_success. rewrite andb_true_iff. lia. Qed.

Lemma is_success_false (statusCode : Z) :
  is_success statusCode = false ↔ ¬ (200 ≤ statusCode < 300)%Z.
Proof. rewrite <- is_success_true. by destruct (is_success statusCode). Qed.

Section DispatcherProperties.

Context {Json Url Payload : Type}.
Variable JSON_parse : string → option Json.
Variable JSON_stringify : Payload → string.
Variable URL_parse : string → option Url.
Variable request : Url → string → exchange.

(** Outside [200, 300) the two branches of the [try]/[catch] reject
    alike. *)
Lemma on_end_failure (statusCode : Z) (body : string) :
  is_success statusCode = false →
  on_end JSON_parse statusCode body
  = Rejected (Error (http_error_message statusCode body)).
Proof. intros H. unfold on_end. rewrite H. by destruct (JSON_parse body). Qed.

(** C1.  When the request to [url] completes with a status code outside
    [200, 300), the promise is rejected with an [Error] whose message is
    [HTTP <statusCode>: <body>]: it contains the decimal status code and
    the received body text as it is.  Nothing is assumed of [JSON.parse]
    on the body, so this holds as well when the body parses. *)
Theorem sendRequest_failure_status (url : string) (data : Payload)
    (urlObj : Url) (statusCode : Z) (chunks : list string) :
  URL_parse url = Some urlObj →
  request urlObj (JSON_stringify data) = Completed statusCode chunks →
  ¬ (200 ≤ statusCode < 300)%Z →
  ∃ message,
    sendRequest JSON_parse JSON_stringify URL_parse request url data
    = Rejected (Error message)
    ∧ message = "HTTP " +:+ pretty statusCode +:+ ": " +:+ receive chunks
    ∧ contains message (pretty statusCode)
    ∧ contains message (receive chunks).
Proof.
  intros Hu Hr Hs%is_success_false. unfold sendRequest. rewrite Hu, Hr.
  rewrite (on_end_failure _ _ Hs). eexists. split; [reflexivity|].
  split; [reflexivity|]. unfold http_error_message. split.
  - apply contains_app_r, contains_here.
  - do 2 apply contains_app_r. apply contains_end.
Qed.

(** C8.  When the request completes with a status code in [200, 300)
    and [JSON.parse] throws on the body, the promise is resolved with
    the object [{ raw: body }]. *)
Theorem sendRequest_success_unparsable (url : string) (data : Payload)
    (urlObj : Url) (statusCode : Z) (chunks : list string) :
  URL_parse url = Some urlObj →
  request urlObj (JSON_stringify data) = Completed statusCode chunks →
  (200 ≤ statusCode < 300)%Z →
  JSON_parse (receive chunks) = None →
  sendRequest JSON_parse JSON_stringify URL_parse request url data
  = Resolved (Raw (receive chunks)).
Proof.
  intros Hu Hr Hs%is_success_true Hp. unfold sendRequest. rewrite Hu, Hr.
  unfold on_end. by rewrite Hp, Hs.
Qed.

End DispatcherProperties.

Lemma sendRequest_failure_status_witness :
  JSON_parse_literal (receive ["nu"; "ll"]) = Some None
  ∧ sendRequest JSON_parse_literal id Some (answer 500 ["nu"; "ll"])
      "https://hooks.slack.com/test" "{}"
    = Rejected (Error "HTTP 500: null").
Proof.
  split; [reflexivity|].
  destruct (sendRequest_failure_status JSON_parse_literal id Some
              (answer 500 ["nu"; "ll"]) "https://hooks.slack.com/test" "{}"
              "https://hooks.slack.com/test" 500%Z ["nu"; "ll"])
    as (message & H & -> & _); [reflexivity | reflexivity | lia |].
  exact H.
Defined.

Lemma sendRequest_success_unparsable_witness :
  sendRequest JSON_parse_literal id Some (answer 200 ["ok"])
    "https://hooks.slack.com/test" "{}"
  = Resolved (Raw "ok").
Proof.
  apply (sendRequest_success_unparsable JSON_parse_literal id Some
           (answer 200 ["ok"]) "https://hooks.slack.com/test" "{}"
           "https://hooks.slack.com/test" 200%Z ["ok"]);
    [reflexivity | reflexivity | lia | reflexivity].
Defined.

Example sendRequest_success_parsed :
  sendRequest JSON_parse_literal id Some (answer 204 ["true"])
    "https://hooks.slack.com/test" "{}"
  = Resolved (Parsed (Some true)).
Proof. reflexivity. Qed.

(** * Further properties *)

(** ** The tables *)

Lemma truthy_env_true (env : gmap string string) (name : string) :
  truthy_env (env !! name) = true ↔ is_set env name.
Proof.
  unfold is_set. destruct (env !! name) as [[|a v]|]; simpl; split;
    try done; try (intros (? & [=] & ?); done).
  intros _. by eexists.
Qed.

Lemma is_Some_in_registry (k1 k2 k3 k4 k5 platform : string) :
  k1 = platform ∨ k2 = platform ∨ k3 = platform ∨ k4 = platform
  ∨ k5 = platform ∨ False
  ↔ platform ∈ [k1; k2; k3; k4; k5].
Proof. rewrite !elem_of_cons, elem_of_nil. intuition congruence. Qed.

(** The key sets of the four tables. *)
Lemma registry_tables (platform : string) :
  (is_Some (ENV_KEYS !! platform) ↔ platform ∈ Object_values PLATFORMS)
  ∧ (is_Some (buildWebhookUrl !! platform)
     ↔ platform ∈ Object_values PLATFORMS)
  ∧ (is_Some (formatMessage !! platform)
     ↔ platform ∈ Object_values PLATFORMS)
  ∧ (is_Some (ENV_EXTRAS !! platform) ↔ platform = "telegram")
  ∧ (platform ∈ Object_values PLATFORMS →
     platform ∉ Object_prototype_names).
Proof.
  rewrite Object_values_PLATFORMS. unfold registry.
  unfold ENV_KEYS, buildWebhookUrl, formatMessage, ENV_EXTRAS.
  rewrite !lookup_insert_is_Some', !lookup_empty, !is_Some_alt.
  rewrite <- !is_Some_in_registry.
  repeat split; try tauto.
  - intros [?|[]]. done.
  - intros ->. by left.
  - intros H Hp.
    repeat (destruct H as [<-|H]; [revert Hp; not_in_list|]). done.
Qed.

(** X1.  The four tables are keyed alike: a name has an environment
    variable exactly when it has a URL builder, exactly when it has a
    message formatter, exactly when it is one of the five identifiers
    of [PLATFORMS]; an extra variable is declared for registered names
    only; and no registered name is a member name of
    [Object.prototype]. *)
Theorem registry_tables_agree (platform : string) :
  (is_Some (ENV_KEYS !! platform) ↔ platform ∈ Object_values PLATFORMS)
  ∧ (is_Some (buildWebhookUrl !! platform)
     ↔ platform ∈ Object_values PLATFORMS)
  ∧ (is_Some (formatMessage !! platform)
     ↔ platform ∈ Object_values PLATFORMS)
  ∧ (is_Some (ENV_EXTRAS !! platform) ↔ platform = "telegram")
  ∧ (platform ∈ Object_values PLATFORMS →
     platform ∉ Object_prototype_names).
Proof. apply registry_tables. Qed.

(** ** Configuration resolver, continued *)

(** X2.  For a registered platform [getConfig] returns exactly when
    the primary variable is set to a non-empty value and so is the
    extra variable, if the platform declares one; [isConfigured] is
    [true] in that case and [false] otherwise. *)
Theorem isConfigured_registered (env : gmap string string)
    (platform envKey : string) :
  ENV_KEYS !! platform = Some envKey →
  isConfigured env platform = true
  ↔ is_set env envKey
    ∧ ∀ extraEnv, ENV_EXTRAS !! platform = Some extraEnv →
                  is_set env extraEnv.
Proof.
  intros Hk. unfold isConfigured.
  rewrite (getConfig_registered env _ _ Hk). rewrite <- truthy_env_true.
  destruct (truthy_env (env !! envKey)); simpl; [|intuition discriminate].
  destruct (ENV_EXTRAS !! platform) as [extraEnv|].
  - destruct (truthy_env (env !! extraEnv)) eqn:He; simpl.
    + split; [|done]. intros _. split; [done|].
      intros ? [= <-]. by apply truthy_env_true.
    + split; [done|]. intros [_ H].
      specialize (H _ eq_refl). apply truthy_env_true in H. congruence.
  - split; [|done]. intros _. split; [done|]. intros ? [=].
Qed.

Lemma isConfigured_registered_witness :
  isConfigured {[ "WEBHOOK_SLACK_URL" := "https://hooks.slack.com/test" ]}
    "slack" = true.
Proof.
  apply (isConfigured_registered _ "slack" "WEBHOOK_SLACK_URL");
    [vm_compute; reflexivity|].
  split.
  - exists "https://hooks.slack.com/test". split; [reflexivity|discriminate].
  - intros extraEnv H. vm_compute in H. discriminate H.
Defined.

(** X3.  [getConfig] on a registered platform reads the platform's own
    variables only: two environments that agree on them give the same
    result, whatever else they hold. *)
Theorem getConfig_reads_own_variables (env env' : gmap string string)
    (platform envKey : string) :
  ENV_KEYS !! platform = Some envKey →
  env !! envKey = env' !! envKey →
  (∀ extraEnv, ENV_EXTRAS !! platform = Some extraEnv →
               env !! extraEnv = env' !! extraEnv) →
  getConfig env platform = getConfig env' platform.
Proof.
  intros Hk He Hx.
  rewrite (getConfig_registered env _ _ Hk), (getConfig_registered env' _ _ Hk).
  rewrite He. destruct (ENV_EXTRAS !! platform) as [extraEnv|]; [|done].
  by rewrite (Hx _ eq_refl).
Qed.

Lemma getConfig_reads_own_variables_witness :
  getConfig {[ "WEBHOOK_WECOM_KEY" := "k" ]} "wecom"
  = getConfig (<[ "WEBHOOK_SLACK_URL" := "https://hooks.slack.com/test" ]>
                 {[ "WEBHOOK_WECOM_KEY" := "k" ]}) "wecom".
Proof.
  apply (getConfig_reads_own_variables _ _ "wecom" "WEBHOOK_WECOM_KEY");
    [vm_compute; reflexivity | vm_compute; reflexivity |].
  intros extraEnv H. vm_compute in H. discriminate H.
Defined.

(** X4.  A configuration [getConfig] returns never carries an empty
    credential, for any platform name; and for a registered platform it
    has an [extra] exactly when the platform is [telegram]. *)
Theorem getConfig_credentials (env : gmap string string)
    (platform : string) (config : Config) :
  getConfig env platform = inr config →
  key config ≠ ""
  ∧ extra config ≠ Some ""
  ∧ (platform ∈ Object_values PLATFORMS →
     (is_Some (extra config) ↔ platform = "telegram")).
Proof.
  intros H. split; [|split].
  - revert H. unfold getConfig.
    destruct (truthy_prop (obj_get ENV_KEYS platform)); [|done]. simpl.
    destruct (env !! to_string (obj_get ENV_KEYS platform)) as [[|a v]|];
      simpl; [done| |done].
    destruct (truthy_prop (obj_get ENV_EXTRAS platform)); [|by intros [= <-]].
    destruct (truthy_env _); simpl; [|done]. by intros [= <-].
  - revert H. unfold getConfig.
    destruct (truthy_prop (obj_get ENV_KEYS platform)); [|done]. simpl.
    destruct (truthy_env (env !! to_string (obj_get ENV_KEYS platform)));
      [|done]. simpl.
    destruct (truthy_prop (obj_get ENV_EXTRAS platform)); [|by intros [= <-]].
    destruct (env !! to_string (obj_get ENV_EXTRAS platform)) as [[|a v]|];
      simpl; [done| |done]. by intros [= <-].
  - intros Hp.
    destruct (registry_tables platform) as (Hk & _ & _ & Hx & _).
    apply Hk in Hp as [envKey Hp].
    rewrite (getConfig_registered env _ _ Hp) in H. rewrite <- Hx.
    destruct (truthy_env (env !! envKey)); [|done]. simpl in H.
    destruct (ENV_EXTRAS !! platform) as [extraEnv|] eqn:Hl.
    + destruct (env !! extraEnv) as [[|a v]|]; simpl in H; [done| |done].
      injection H as <-. simpl. split; eauto.
    + injection H as <-. simpl. split; intros [? [=]].
Qed.

Lemma getConfig_credentials_witness :
  key {| key := "test-token"; extra := Some "-123456" |} ≠ ""
  ∧ extra {| key := "test-token"; extra := Some "-123456" |} ≠ Some "".
Proof.
  destruct (getConfig_credentials
              (<[ "WEBHOOK_TELEGRAM_CHAT_ID" := "-123456" ]>
                 {[ "WEBHOOK_TELEGRAM_TOKEN" := "test-token" ]}) "telegram"
              {| key := "test-token"; extra := Some "-123456" |})
    as (H1 & H2 & _); [vm_compute; reflexivity|].
  by split.
Defined.

(** X5.  On a name that is neither one of the five identifiers nor a
    member name of [Object.prototype], [getConfig] throws the unknown-
    platform error in every environment; its message quotes the name
    and lists each of the five identifiers, and [isConfigured] is
    [false]. *)
Theorem getConfig_unknown_enumerates (env : gmap string string)
    (platform : string) :
  platform ∉ Object_values PLATFORMS → platform ∉ Object_prototype_names →
  ∃ message,
    getConfig env platform = inl (Error message)
    ∧ message = "Unknown platform: " +:+ platform
                +:+ ". Supported platforms: wecom, dingtalk, feishu, slack, telegram"
    ∧ contains message platform
    ∧ Forall (contains message) (Object_values PLATFORMS)
    ∧ isConfigured env platform = false.
Proof.
  intros Hr Hp. unfold isConfigured.
  rewrite (getConfig_unknown_platform env platform Hr Hp).
  eexists. split; [reflexivity|]. split; [reflexivity|]. split; [|split].
  - apply contains_app_r, contains_here.
  - rewrite Object_values_PLATFORMS. unfold registry.
    repeat apply Forall_cons_2; [..|apply Forall_nil_2];
      do 2 apply contains_app_r.
    + by exists ". Supported platforms: ", ", dingtalk, feishu, slack, telegram".
    + by exists ". Supported platforms: wecom, ", ", feishu, slack, telegram".
    + by exists ". Supported platforms: wecom, dingtalk, ", ", slack, telegram".
    + by exists ". Supported platforms: wecom, dingtalk, feishu, ", ", telegram".
    + by exists ". Supported platforms: wecom, dingtalk, feishu, slack, ", "".
  - reflexivity.
Qed.

Lemma getConfig_unknown_enumerates_witness :
  isConfigured {[ "WEBHOOK_WECOM_KEY" := "k" ]} "discord" = false.
Proof.
  destruct (getConfig_unknown_enumerates {[ "WEBHOOK_WECOM_KEY" := "k" ]}
              "discord") as (message & _ & _ & _ & _ & H).
  - rewrite Object_values_PLATFORMS. unfold registry. not_in_list.
  - unfold Object_prototype_names. not_in_list.
  - exact H.
Defined.

Lemma sublist_filter_impl {A : Type} (P Q : A → Prop)
    `{!∀ x, Decision (P x)} `{!∀ x, Decision (Q x)} (l : list A) :
  (∀ x, P x → Q x) → sublist (filter P l) (filter Q l).
Proof.
  intros HPQ. induction l as [|x l IH]; [constructor|].
  rewrite !filter_cons.
  destruct (decide (P x)) as [HP|HP].
  - rewrite decide_True by auto. by constructor.
  - destruct (decide (Q x)); [by constructor|done].
Qed.

(** X6.  Setting more variables never removes a platform: when every
    variable that is set to a non-empty value in [env] is so in [env'],
    a platform configured under [env] is configured under [env'], and
    the list of configured platforms under [env] is a sublist of the
    one under [env']. *)
Theorem isConfigured_monotone (env env' : gmap string string) :
  (∀ name, is_set env name → is_set env' name) →
  (∀ platform, isConfigured env platform = true →
               isConfigured env' platform = true)
  ∧ sublist (getConfiguredPlatforms env) (getConfiguredPlatforms env').
Proof.
  intros Hset.
  assert (∀ name, truthy_env (env !! name) = true →
                  truthy_env (env' !! name) = true) as Ht.
  { intros name. rewrite !truthy_env_true. apply Hset. }
  assert (∀ platform, isConfigured env platform = true →
                      isConfigured env' platform = true) as Hmono.
  { intros platform. unfold isConfigured, getConfig.
    destruct (truthy_prop (obj_get ENV_KEYS platform)); [|done].
    cbn [negb].
    destruct (truthy_env (env !! _)) eqn:H1; [|done].
    rewrite (Ht _ H1). cbn [negb].
    destruct (truthy_prop (obj_get ENV_EXTRAS platform)); [|done].
    destruct (truthy_env (env !! to_string (obj_get ENV_EXTRAS platform)))
      eqn:H2; [|done].
    by rewrite (Ht _ H2). }
  split; [exact Hmono|].
  unfold getConfiguredPlatforms. by apply sublist_filter_impl.
Qed.

Lemma isConfigured_monotone_witness :
  sublist (getConfiguredPlatforms {[ "WEBHOOK_WECOM_KEY" := "k" ]})
    (getConfiguredPlatforms
       (<[ "WEBHOOK_SLACK_URL" := "https://hooks.slack.com/test" ]>
          {[ "WEBHOOK_WECOM_KEY" := "k" ]})).
Proof.
  apply isConfigured_monotone.
  intros name (value & H & Hne). exists value. split; [|exact Hne].
  apply lookup_singleton_Some in H as [<- <-]. vm_compute. reflexivity.
Defined.

(** ** URL builders and [push] *)

(** X7.  Apart from Telegram's, a URL builder never gives two
    credentials the same URL; Slack's URL is the credential itself. *)
Theorem buildWebhookUrl_injective (platform : string)
    (urlBuilder : string → option string → string) :
  buildWebhookUrl !! platform = Some urlBuilder →
  platform ≠ "telegram" →
  (∀ key key' extra extra',
     urlBuilder key extra = urlBuilder key' extra' → key = key')
  ∧ (platform = "slack" → ∀ key extra, urlBuilder key extra = key).
Proof.
  intros Hb Hne.
  assert (platform ∈ registry) as Hp.
  { rewrite <- Object_values_PLATFORMS.
    destruct (registry_tables platform) as (_ & H & _).
    apply H. eauto. }
  unfold registry in Hp. rewrite !elem_of_cons, elem_of_nil in Hp.
  destruct Hp as [->|[->|[->|[->|[->|[]]]]]]; [..|done];
    vm_compute in Hb; injection Hb as <-;
    (split; [|by intros; try discriminate]);
    intros key key' extra extra' H; by simplify_eq.
Qed.

Lemma buildWebhookUrl_injective_witness :
  "https://open.feishu.cn/open-apis/bot/v2/hook/" +:+ "token-a"
  ≠ "https://open.feishu.cn/open-apis/bot/v2/hook/" +:+ "token-b".
Proof.
  destruct (buildWebhookUrl_injective "feishu"
              (λ token _, "https://open.feishu.cn/open-apis/bot/v2/hook/"
                          +:+ token))
    as [H _]; [vm_compute; reflexivity | discriminate |].
  intros Heq. apply (H "token-a" "token-b" None None) in Heq.
  discriminate Heq.
Defined.

Section PushProperties.

Context {Json Url : Type}.
Variable JSON_parse : string → option Json.
Variable JSON_stringify : payload → string.
Variable URL_parse : string → option Url.
Variable request : Url → string → exchange.
Variable call_inherited : string → Config → string → Options.t → settled Json.
Variable toUpperCase : string → string.
Variable now : string.

(** [push] once the configuration and the two table entries are known. *)
Lemma push_configured env content options platform config urlBuilder
    formatter :
  or_default (Options.platform options) DEFAULT_PLATFORM = platform →
  getConfig env platform = inr config →
  buildWebhookUrl !! platform = Some urlBuilder →
  formatMessage !! platform = Some formatter →
  push JSON_parse JSON_stringify URL_parse request call_inherited env content
    options
  = sendRequest JSON_parse JSON_stringify URL_parse request
      (urlBuilder (key config) (extra config)) (formatter content options).
Proof.
  intros Hp Hc Hb Hf. unfold push, obj_get. by rewrite Hp, Hc, Hb, Hf.
Qed.

(** X8.  For one of the five identifiers, [push] is settled by the
    registry alone: when [getConfig] throws, the promise is rejected
    with that error and nothing is sent; when it returns, the promise
    is the one of [sendRequest] on the URL and the payload that the
    platform's own builder and formatter make. *)
Theorem push_registered env content options platform :
  or_default (Options.platform options) DEFAULT_PLATFORM = platform →
  platform ∈ Object_values PLATFORMS →
  ∃ urlBuilder formatter,
    buildWebhookUrl !! platform = Some urlBuilder
    ∧ formatMessage !! platform = Some formatter
    ∧ push JSON_parse JSON_stringify URL_parse request call_inherited env
        content options
      = match getConfig env platform with
        | inl e => Rejected e
        | inr config =>
            sendRequest JSON_parse JSON_stringify URL_parse request
              (urlBuilder (key config) (extra config))
              (formatter content options)
        end.
Proof.
  intros Hp Hr.
  destruct (registry_tables platform) as (_ & Hb & Hf & _).
  destruct (proj2 Hb Hr) as [urlBuilder Hb'].
  destruct (proj2 Hf Hr) as [formatter Hf'].
  exists urlBuilder, formatter. split; [done|]. split; [done|].
  destruct (getConfig env platform) as [e|config] eqn:Hc.
  - unfold push. by rewrite Hp, Hc.
  - by apply (push_configured env content options platform).
Qed.

(** X9.  Without a platform in the options, or with the empty text as
    platform, [push] posts to WeCom: with [WEBHOOK_WECOM_KEY] set it
    requests the WeCom URL carrying that key with the markdown payload
    of the content, whatever title or color the options hold. *)
Theorem push_default_platform env content options wecomKey :
  Options.platform options = None ∨ Options.platform options = Some "" →
  env !! "WEBHOOK_WECOM_KEY" = Some wecomKey → wecomKey ≠ "" →
  push JSON_parse JSON_stringify URL_parse request call_inherited env content
    options
  = sendRequest JSON_parse JSON_stringify URL_parse request
      ("https://qyapi.weixin.qq.com/cgi-bin/webhook/send?key=" +:+ wecomKey)
      (PObject [ ("msgtype", PString "markdown");
                 ("markdown", PObject [ ("content", PString content) ]) ]).
Proof.
  intros Hp Hk Hne.
  rewrite (push_configured env content options "wecom"
             {| key := wecomKey; extra := None |}
             (λ key _, "https://qyapi.weixin.qq.com/cgi-bin/webhook/send?key="
                       +:+ key)
             (λ content options,
                PObject [ ("msgtype", PString "markdown");
                          ("markdown",
                           PObject [ ("content", PString content) ]) ])).
  - reflexivity.
  - by destruct Hp as [-> | ->].
  - rewrite (getConfig_registered env "wecom" "WEBHOOK_WECOM_KEY")
      by (vm_compute; reflexivity).
    rewrite Hk. simpl. apply truthy_string_true in Hne as ->. simpl.
    eval_closed (ENV_EXTRAS !! "wecom"). reflexivity.
  - vm_compute. reflexivity.
  - vm_compute. reflexivity.
Qed.

(** X10.  With Telegram's token and chat id set, [push] to [telegram]
    requests the bot URL that carries both, as they are, with the
    Markdown payload of the content. *)
Theorem push_telegram env content options token chatId :
  Options.platform options = Some "telegram" →
  env !! "WEBHOOK_TELEGRAM_TOKEN" = Some token → token ≠ "" →
  env !! "WEBHOOK_TELEGRAM_CHAT_ID" = Some chatId → chatId ≠ "" →
  push JSON_parse JSON_stringify URL_parse request call_inherited env content
    options
  = sendRequest JSON_parse JSON_stringify URL_parse request
      ("https://api.telegram.org/bot" +:+ token +:+ "/sendMessage?chat_id="
       +:+ chatId)
      (PObject [ ("text", PString content);
                 ("parse_mode", PString "Markdown") ]).
Proof.
  intros Hp Ht Hne Hc Hce.
  rewrite (push_configured env content options "telegram"
             {| key := token; extra := Some chatId |}
             (λ token chatId,
                "https://api.telegram.org/bot" +:+ token
                +:+ "/sendMessage?chat_id=" +:+ interp chatId)
             (λ content options,
                PObject [ ("text", PString content);
                          ("parse_mode", PString "Markdown") ])).
  - reflexivity.
  - by rewrite Hp.
  - rewrite (getConfig_registered env "telegram" "WEBHOOK_TELEGRAM_TOKEN")
      by (vm_compute; reflexivity).
    rewrite Ht. simpl. apply truthy_string_true in Hne as ->. simpl.
    eval_closed (ENV_EXTRAS !! "telegram"). rewrite Hc. simpl.
    by apply truthy_string_true in Hce as ->.
  - vm_compute. reflexivity.
  - vm_compute. reflexivity.
Qed.

End PushProperties.

Lemma push_registered_witness :
  push JSON_parse_literal (λ _, "{}") Some (answer 200 ["ok"])
    (λ _ _ _ _, Rejected (Foreign "native")) ∅ "hello"
    (Options.mk (Some "slack") None None)
  = Rejected (Error (missing_key_message "WEBHOOK_SLACK_URL")).
Proof.
  destruct (push_registered JSON_parse_literal (λ _, "{}") Some
              (answer 200 ["ok"]) (λ _ _ _ _, Rejected (Foreign "native")) ∅
              "hello" (Options.mk (Some "slack") None None) "slack")
    as (urlBuilder & formatter & _ & _ & ->).
  - reflexivity.
  - rewrite Object_values_PLATFORMS. unfold registry.
    rewrite !elem_of_cons. tauto.
  - vm_compute. reflexivity.
Defined.

Lemma push_default_platform_witness :
  push JSON_parse_literal (λ _, "{}") Some (answer 200 ["ok"])
    (λ _ _ _ _, Rejected (Foreign "native"))
    {[ "WEBHOOK_WECOM_KEY" := "k" ]} "hello" (Options.mk None (Some "t") None)
  = Resolved (Raw "ok").
Proof.
  rewrite (push_default_platform JSON_parse_literal (λ _, "{}") Some
             (answer 200 ["ok"]) (λ _ _ _ _, Rejected (Foreign "native"))
             {[ "WEBHOOK_WECOM_KEY" := "k" ]} "hello"
             (Options.mk None (Some "t") None) "k");
    [reflexivity | by left | vm_compute; reflexivity | discriminate].
Defined.

Lemma push_telegram_witness :
  push JSON_parse_literal (λ _, "{}") Some (answer 200 ["true"])
    (λ _ _ _ _, Rejected (Foreign "native"))
    (<[ "WEBHOOK_TELEGRAM_CHAT_ID" := "-123456" ]>
       {[ "WEBHOOK_TELEGRAM_TOKEN" := "test-token" ]})
    "hello" (Options.mk (Some "telegram") None None)
  = Resolved (Parsed (Some true)).
Proof.
  rewrite (push_telegram JSON_parse_literal (λ _, "{}") Some
             (answer 200 ["true"]) (λ _ _ _ _, Rejected (Foreign "native"))
             _ "hello" (Options.mk (Some "telegram") None None)
             "test-token" "-123456");
    [reflexivity | reflexivity | vm_compute; reflexivity | discriminate
    | vm_compute; reflexivity | discriminate].
Defined.

(** ** [pushProgress] through [push] *)

Lemma progress_title_truthy (taskName status : string) :
  truthy_string (taskName +:+ " - " +:+ status) = true.
Proof. by destruct taskName. Qed.

Lemma STATUS_STYLES_Some (status : string) (style : Style.t) :
  STATUS_STYLES !! status = Some style →
  status ∈ status_kinds
  ∧ style_for status = Own style
  ∧ truthy_string (Style.color style) = true.
Proof.
  intros H. unfold style_for, obj_get. rewrite H. split; [|split; [done|]].
  - rewrite STATUS_STYLES_lookup in H. unfold status_kinds.
    repeat (case_decide; [subst; rewrite !elem_of_cons; tauto|]). done.
  - rewrite STATUS_STYLES_lookup in H.
    repeat (case_decide; [by injection H as <-|]). done.
Qed.

Section ProgressThroughPush.

Context {Json Url : Type}.
Variable JSON_parse : string → option Json.
Variable JSON_stringify : payload → string.
Variable URL_parse : string → option Url.
Variable request : Url → string → exchange.
Variable call_inherited : string → Config → string → Options.t → settled Json.
Variable toUpperCase : string → string.
Variable now : string.

(** X11.  A progress notification to DingTalk always carries the title
    [taskName - status]: the default [Notification] is never used and a
    title in the caller's options never reaches the payload. *)
Theorem pushProgress_dingtalk_title env taskName status details options token :
  Options.platform options = Some "dingtalk" →
  env !! "WEBHOOK_DINGTALK_TOKEN" = Some token → token ≠ "" →
  pushProgress toUpperCase now
    (push JSON_parse JSON_stringify URL_parse request call_inherited env)
    taskName status details options
  = (options,
     sendRequest JSON_parse JSON_stringify URL_parse request
       ("https://oapi.dingtalk.com/robot/send?access_token=" +:+ token)
       (PObject
          [ ("msgtype", PString "markdown");
            ("markdown",
             PObject
               [ ("title", PString (taskName +:+ " - " +:+ status));
                 ("text",
                  PString (formatDingTalkProgress toUpperCase now taskName
                             status details (style_for status))) ]) ])).
Proof.
  intros Hp Ht Hne. unfold pushProgress. rewrite Hp.
  cbn [or_default truthy_string]. unfold formatProgress.
  cbn [String.eqb Ascii.eqb Bool.eqb]. f_equal.
  rewrite (push_configured _ _ _ _ _ _ _ _ "dingtalk"
             {| key := token; extra := None |}
             (λ token _,
                "https://oapi.dingtalk.com/robot/send?access_token=" +:+ token)
             (λ content options,
                PObject
                  [ ("msgtype", PString "markdown");
                    ("markdown",
                     PObject
                       [ ("title",
                          PString (or_default (Options.title options)
                                              "Notification"));
                         ("text", PString content) ]) ])).
  - cbn [Options.title or_default key extra].
    by rewrite progress_title_truthy.
  - by rewrite Hp.
  - rewrite (getConfig_registered env "dingtalk" "WEBHOOK_DINGTALK_TOKEN")
      by (vm_compute; reflexivity).
    rewrite Ht. simpl. apply truthy_string_true in Hne as ->. simpl.
    eval_closed (ENV_EXTRAS !! "dingtalk"). reflexivity.
  - vm_compute. reflexivity.
  - vm_compute. reflexivity.
Qed.

(** X12.  A progress notification to Feishu with a status kind of the
    table: the card's header template is the color of that kind and
    its title is [taskName - status], whatever color and title the
    caller's options held; the caller's options come back with that
    color. *)
Theorem pushProgress_feishu_card env taskName status details options token
    style :
  Options.platform options = Some "feishu" →
  env !! "WEBHOOK_FEISHU_TOKEN" = Some token → token ≠ "" →
  STATUS_STYLES !! status = Some style →
  pushProgress toUpperCase now
    (push JSON_parse JSON_stringify URL_parse request call_inherited env)
    taskName status details options
  = (Options.mk (Some "feishu") (Options.title options)
                (Some (Style.color style)),
     sendRequest JSON_parse JSON_stringify URL_parse request
       ("https://open.feishu.cn/open-apis/bot/v2/hook/" +:+ token)
       (PObject
          [ ("msg_type", PString "interactive");
            ("card",
             PObject
               [ ("header",
                  PObject
                    [ ("title",
                       PObject
                         [ ("tag", PString "plain_text");
                           ("content",
                            PString (taskName +:+ " - " +:+ status)) ]);
                      ("template", PString (Style.color style)) ]);
                 ("elements",
                  PArray
                    [ PObject
                        [ ("tag", PString "markdown");
                          ("content",
                           PString (formatFeishuProgress toUpperCase now
                                      taskName status details
                                      (Own style))) ] ]) ]) ])).
Proof.
  intros Hp Ht Hne (_ & Hs & Hc)%STATUS_STYLES_Some.
  unfold pushProgress. rewrite Hp, Hs.
  cbn [or_default truthy_string]. unfold formatProgress.
  cbn [String.eqb Ascii.eqb Bool.eqb style_field Options.platform
       Options.title Options.color].
  apply pair_equal_spec. split; [by rewrite Hp|].
  rewrite (push_configured _ _ _ _ _ _ _ _ "feishu"
             {| key := token; extra := None |}
             (λ token _,
                "https://open.feishu.cn/open-apis/bot/v2/hook/" +:+ token)
             (λ content options,
                PObject
                  [ ("msg_type", PString "interactive");
                    ("card",
                     PObject
                       [ ("header",
                          PObject
                            [ ("title",
                               PObject
                                 [ ("tag", PString "plain_text");
                                   ("content",
                                    PString
                                      (or_default (Options.title options)
                                                  "Notification")) ]);
                              ("template",
                               PString (or_default (Options.color options)
                                                   "blue")) ]);
                         ("elements",
                          PArray
                            [ PObject
                                [ ("tag", PString "markdown");
                                  ("content", PString content) ] ]) ]) ])).
  - cbn [Options.title Options.color or_default key extra].
    by rewrite progress_title_truthy, Hc.
  - cbn [Options.platform]. by rewrite Hp.
  - rewrite (getConfig_registered env "feishu" "WEBHOOK_FEISHU_TOKEN")
      by (vm_compute; reflexivity).
    rewrite Ht. simpl. apply truthy_string_true in Hne as ->. simpl.
    eval_closed (ENV_EXTRAS !! "feishu"). reflexivity.
  - vm_compute. reflexivity.
  - vm_compute. reflexivity.
Qed.

(** X13.  When the platform is not configured, [pushProgress] is
    rejected with the error of [getConfig] and nothing is sent; the
    content has been formatted before, so for [feishu] the caller's
    options have their color overwritten all the same. *)
Theorem pushProgress_config_failure env taskName status details options e :
  let platform := or_default (Options.platform options) DEFAULT_PLATFORM in
  getConfig env platform = inl e →
  pushProgress toUpperCase now
    (push JSON_parse JSON_stringify URL_parse request call_inherited env)
    taskName status details options
  = (if String.eqb platform "feishu"
     then Options.mk (Options.platform options) (Options.title options)
                     (style_field Style.color (style_for status))
     else options,
     Rejected e).
Proof.
  intros platform He.
  pose proof (formatProgress_options toUpperCase now platform taskName status
                details (style_for status) options) as (Hp & _ & Ho).
  unfold pushProgress. fold platform.
  destruct (formatProgress _ _ _ _ _ _ _ _) as [content options'].
  cbn [snd] in Hp, Ho. rewrite <- Ho. f_equal.
  unfold push. cbn [Options.platform]. rewrite Hp. fold platform.
  by rewrite He.
Qed.

End ProgressThroughPush.

Lemma pushProgress_dingtalk_title_witness :
  (pushProgress toUpperCase_ascii "T"
     (push JSON_parse_literal (λ _, "{}") Some (answer 200 ["ok"])
        (λ _ _ _ _, Rejected (Foreign "native"))
        {[ "WEBHOOK_DINGTALK_TOKEN" := "tok" ]})
     "Build" "completed" "" (Options.mk (Some "dingtalk") (Some "mine") None)).2
  = Resolved (Raw "ok").
Proof.
  rewrite (pushProgress_dingtalk_title JSON_parse_literal (λ _, "{}") Some
             (answer 200 ["ok"]) (λ _ _ _ _, Rejected (Foreign "native"))
             toUpperCase_ascii "T" {[ "WEBHOOK_DINGTALK_TOKEN" := "tok" ]}
             "Build" "completed" ""
             (Options.mk (Some "dingtalk") (Some "mine") None) "tok");
    [reflexivity | reflexivity | vm_compute; reflexivity | discriminate].
Defined.

Lemma pushProgress_feishu_card_witness :
  (pushProgress toUpperCase_ascii "T"
     (push JSON_parse_literal (λ _, "{}") Some (answer 200 ["ok"])
        (λ _ _ _ _, Rejected (Foreign "native"))
        {[ "WEBHOOK_FEISHU_TOKEN" := "tok" ]})
     "Build" "failed" "" (Options.mk (Some "feishu") (Some "mine")
                                     (Some "purple"))).1
  = Options.mk (Some "feishu") (Some "mine") (Some "red").
Proof.
  rewrite (pushProgress_feishu_card JSON_parse_literal (λ _, "{}") Some
             (answer 200 ["ok"]) (λ _ _ _ _, Rejected (Foreign "native"))
             toUpperCase_ascii "T" {[ "WEBHOOK_FEISHU_TOKEN" := "tok" ]}
             "Build" "failed" ""
             (Options.mk (Some "feishu") (Some "mine") (Some "purple")) "tok"
             style_failed);
    [reflexivity | reflexivity | vm_compute; reflexivity | discriminate
    | vm_compute; reflexivity].
Defined.

Lemma pushProgress_config_failure_witness :
  pushProgress toUpperCase_ascii "T"
    (push JSON_parse_literal (λ _, "{}") Some (answer 200 ["ok"])
       (λ _ _ _ _, Rejected (Foreign "native")) ∅)
    "Build" "failed" "" (Options.mk (Some "feishu") None (Some "purple"))
  = (Options.mk (Some "feishu") None (Some "red"),
     Rejected (Error (missing_key_message "WEBHOOK_FEISHU_TOKEN"))).
Proof.
  apply (pushProgress_config_failure JSON_parse_literal (λ _, "{}") Some
           (answer 200 ["ok"]) (λ _ _ _ _, Rejected (Foreign "native"))
           toUpperCase_ascii "T" ∅ "Build" "failed" ""
           (Options.mk (Some "feishu") None (Some "purple"))).
  vm_compute. reflexivity.
Defined.

(** ** Progress templates, continued *)

Section ProgressInformation.

Variable toUpperCase : string → string.
Variable now : string.

(** X14.  In every template the content holds the task name, the
    upper-cased status text, the details text and the timestamp, each
    as it is (for empty details nothing is required). *)
Theorem formatProgress_information platform taskName status details style
    options :
  let content :=
    (formatProgress toUpperCase now platform taskName status details style
       options).1 in
  contains content taskName
  ∧ contains content (toUpperCase status)
  ∧ contains content details
  ∧ contains content now.
Proof.
  cbn zeta. split; [|split; [|split]].
  - unfold formatProgress.
    repeat (match goal with |- context [String.eqb ?a ?b] =>
                              destruct (String.eqb a b) end);
      cbn [fst];
      unfold formatWeComProgress, formatDingTalkProgress, formatFeishuProgress,
        formatSlackProgress, formatTelegramProgress, formatGenericProgress;
      destruct (truthy_string details); rewrite ?app_assoc;
      repeat (first [apply contains_here | apply contains_app_r]).
  - apply formatProgress_renders_status.
  - destruct details as [|a details].
    + exists "". eexists. reflexivity.
    + by apply formatProgress_renders_details.
  - unfold formatProgress.
    repeat (match goal with |- context [String.eqb ?a ?b] =>
                              destruct (String.eqb a b) end);
      cbn [fst];
      unfold formatWeComProgress, formatDingTalkProgress, formatFeishuProgress,
        formatSlackProgress, formatTelegramProgress, formatGenericProgress;
      destruct (truthy_string details); rewrite ?app_assoc;
      repeat (first [apply contains_end | apply contains_here
                    | apply contains_app_r]).
Qed.

(** X15.  A status that is neither a status kind nor a member name of
    [Object.prototype] is rendered with the [in_progress] style: the
    content is the one the template gives for that style, it shows the
    caller's status text upper-cased, and for [feishu] the color
    written to the caller's options is [yellow]. *)
Theorem pushProgress_unknown_status {R : Type} (push : string → Options.t → R)
    taskName status details options :
  status ∉ status_kinds → status ∉ Object_prototype_names →
  let platform := or_default (Options.platform options) DEFAULT_PLATFORM in
  let formatted :=
    formatProgress toUpperCase now platform taskName status details
      (Own style_in_progress) options in
  pushProgress toUpperCase now push taskName status details options
  = (formatted.2,
     push formatted.1
       (Options.mk (Options.platform options)
                   (Some (taskName +:+ " - " +:+ status))
                   (Options.color formatted.2)))
  ∧ contains formatted.1 (toUpperCase status)
  ∧ (platform = "feishu" → Options.color formatted.2 = Some "yellow").
Proof.
  intros Hs Hp platform formatted.
  pose proof (formatProgress_options toUpperCase now platform taskName status
                details (Own style_in_progress) options) as (Hpl & _ & Ho).
  fold formatted in Hpl, Ho. split; [|split].
  - unfold pushProgress. rewrite (style_for_fallback status Hs Hp).
    fold platform. fold formatted. destruct formatted as [content options'].
    cbn [fst snd] in *. by rewrite Hpl.
  - apply formatProgress_renders_status.
  - intros Hf. rewrite Ho, Hf. reflexivity.
Qed.

End ProgressInformation.

Lemma pushProgress_unknown_status_witness :
  pushProgress toUpperCase_ascii "T" pair "Build" "paused" ""
    (Options.mk (Some "feishu") None None)
  = (Options.mk (Some "feishu") None (Some "yellow"),
     ("**Build**" +:+ nl +:+ "Status: PAUSED" +:+ nl +:+ nl +:+ "---" +:+ nl
      +:+ "T",
      Options.mk (Some "feishu") (Some "Build - paused") (Some "yellow"))).
Proof.
  destruct (pushProgress_unknown_status toUpperCase_ascii "T" pair
              "Build" "paused" "" (Options.mk (Some "feishu") None None))
    as (H & _ & _).
  - unfold status_kinds. not_in_list.
  - unfold Object_prototype_names. not_in_list.
  - exact H.
Defined.

(** ** HTTP dispatcher, continued *)



Lemma has_char_app (c : ascii) (s t : string) :
  has_char c (s +:+ t) = has_char c s || has_char c t.
Proof.
  induction s as [|a s IH]; [reflexivity|].
  rewrite app_cons. cbn [has_char]. by rewrite IH, orb_assoc.
Qed.

Lemma pretty_N_go_colon (x : N) (s : string) :
  has_char ":" (pretty_N_go x s) = has_char ":" s.
Proof.
  revert s. induction (N.lt_wf_0 x) as [x _ IH]; intros s.
  assert (x = 0 ∨ 0 < x)%N as [->|?] by lia.
  - by rewrite pretty_N_go_0.
  - rewrite pretty_N_go_step by done. rewrite IH by by apply N.div_lt.
    cbn [has_char]. unfold pretty_N_char. by repeat case_match.
Qed.

Lemma pretty_Z_colon (statusCode : Z) : has_char ":" (pretty statusCode) = false.
Proof.
  assert (∀ p : positive, has_char ":" (pretty p) = false) as Hp.
  { intros p. unfold pretty, pretty_positive, pretty, pretty_N.
    case_decide; [done|]. by rewrite pretty_N_go_colon. }
  destruct statusCode as [|p|p]; [done|apply Hp|].
  unfold pretty, pretty_Z. rewrite has_char_app. by rewrite Hp.
Qed.

Lemma app_char_inj (c : ascii) (s1 s2 t1 t2 : string) :
  has_char c s1 = false → has_char c s2 = false →
  s1 +:+ String c t1 = s2 +:+ String c t2 → s1 = s2 ∧ t1 = t2.
Proof.
  revert s2. induction s1 as [|a s1 IH]; intros [|b s2]; rewrite ?app_cons;
    cbn [has_char]; intros H1 H2 H.
  - change ("" +:+ String c t1) with (String c t1) in H.
    change ("" +:+ String c t2) with (String c t2) in H. by simplify_eq.
  - change ("" +:+ String c t1) with (String c t1) in H.
    injection H as -> _. by rewrite Ascii.eqb_refl in H2.
  - change ("" +:+ String c t2) with (String c t2) in H.
    injection H as -> _. by rewrite Ascii.eqb_refl in H1.
  - injection H as -> H. apply orb_false_iff in H1 as [_ H1].
    apply orb_false_iff in H2 as [_ H2].
    destruct (IH _ H1 H2 H) as [-> ->]. done.
Qed.

Section DispatcherOutcomes.

Context {Json Url Payload : Type}.
Variable JSON_parse : string → option Json.
Variable JSON_stringify : Payload → string.
Variable URL_parse : string → option Url.

(** X16.  Once the exchange has completed, the status code alone
    decides between success and failure: the promise is resolved
    exactly when the code is in [200, 300), with the parsed body when
    [JSON.parse] returns and with [{ raw: body }] when it throws. *)
Theorem sendRequest_resolves_iff (request : Url → string → exchange)
    (url : string) (data : Payload) (urlObj : Url) (statusCode : Z)
    (chunks : list string) :
  URL_parse url = Some urlObj →
  request urlObj (JSON_stringify data) = Completed statusCode chunks →
  ((∃ value, sendRequest JSON_parse JSON_stringify URL_parse request url data
             = Resolved value)
   ↔ (200 ≤ statusCode < 300)%Z)
  ∧ ((200 ≤ statusCode < 300)%Z →
     sendRequest JSON_parse JSON_stringify URL_parse request url data
     = Resolved match JSON_parse (receive chunks) with
                | Some value => Parsed value
                | None => Raw (receive chunks)
                end).
Proof.
  intros Hu Hr. unfold sendRequest, on_end. rewrite Hu, Hr.
  rewrite <- is_success_true.
  destruct (is_success statusCode), (JSON_parse (receive chunks));
    split; try done; split; try done; eauto; by intros [? [=]].
Qed.


End DispatcherOutcomes.

(** X18.  The message of the HTTP error determines the status code and
    the body: two responses with the same message have the same code
    and the same body text. *)
Theorem http_error_message_inj (statusCode statusCode' : Z)
    (body body' : string) :
  http_error_message statusCode body = http_error_message statusCode' body' →
  statusCode = statusCode' ∧ body = body'.
Proof.
  unfold http_error_message. intros H.
  apply (inj (String.app _)) in H.
  change (": " +:+ body) with (String ":" (" " +:+ body)) in H.
  change (": " +:+ body') with (String ":" (" " +:+ body')) in H.
  apply app_char_inj in H as [H1 H2]; [|apply pretty_Z_colon..].
  split; [by apply (inj pretty)|by apply (inj (String.app _)) in H2].
Qed.

Lemma http_error_message_inj_witness :
  (500 = 500)%Z ∧ "null" = "null".
Proof.
  apply (http_error_message_inj 500 500 "null" "null"). reflexivity.
Defined.

Lemma sendRequest_resolves_iff_witness :
  sendRequest JSON_parse_literal id Some (answer 204 ["true"])
    "https://hooks.slack.com/test" "{}"
  = Resolved (Parsed (Some true)).
Proof.
  destruct (sendRequest_resolves_iff JSON_parse_literal id Some
              (answer 204 ["true"]) "https://hooks.slack.com/test" "{}"
              "https://hooks.slack.com/test" 204%Z ["true"])
    as [_ H]; [reflexivity | reflexivity |].
  apply H. lia.
Defined.


(** ** CLI argument parsing *)

Lemma prefix_app (p s : string) : String.prefix p (p +:+ s) = true.
Proof.
  induction p as [|a p IH]; [by destruct s|].
  rewrite app_cons. cbn [String.prefix].
  destruct (ascii_dec a a); [done|congruence].
Qed.

Lemma prefix_dashes (arg : string) :
  String.prefix "-" arg = false → String.prefix "--" arg = false.
Proof.
  destruct arg as [|a arg]; [done|]. cbn [String.prefix].
  destruct (ascii_dec "-" a); [|done]. by destruct arg.
Qed.

Lemma includes_has_char (c : ascii) (s : string) :
  includes (String c "") s = has_char c s.
Proof.
  induction s as [|a s IH]; [reflexivity|].
  cbn [includes has_char String.prefix]. rewrite IH.
  destruct (ascii_dec c a) as [->|Hne].
  - rewrite Ascii.eqb_refl. by destruct s.
  - apply Ascii.eqb_neq in Hne. rewrite Ascii.eqb_sym in Hne.
    by rewrite Hne.
Qed.

Lemma split_nonempty (c : ascii) (s : string) : split c s ≠ [].
Proof.
  destruct s as [|a s]; [done|]. cbn [split].
  destruct (Ascii.eqb a c); [done|]. by destruct (split c s).
Qed.

(** A text without the separator is one piece; the first separator
    ends the first piece. *)
Lemma split_app (c : ascii) (s t : string) :
  has_char c s = false →
  split c s = [s] ∧ split c (s +:+ String c t) = s :: split c t.
Proof.
  induction s as [|a s IH]; cbn [has_char].
  - intros _. split; [done|].
    change ("" +:+ String c t) with (String c t). cbn [split].
    by rewrite Ascii.eqb_refl.
  - intros [Ha Hs]%orb_false_iff. destruct (IH Hs) as [IH1 IH2].
    rewrite app_cons. cbn [split]. rewrite Ha, IH1, IH2. done.
Qed.

(** The branch of [parseArgs] that is never taken: a long flag with a
    [=] splits into a key and a value at least. *)
Lemma split_includes (arg : string) :
  String.prefix "--" arg = true → includes "=" arg = true →
  ∃ key value pieces, split "=" (slice 2 arg) = key :: value :: pieces.
Proof.
  destruct arg as [|a [|b arg]]; [done| |].
  { cbn [String.prefix]. by destruct (ascii_dec "-" a). }
  cbn [String.prefix].
  destruct (ascii_dec "-" a) as [<-|]; [|done].
  destruct (ascii_dec "-" b) as [<-|]; [|done].
  intros _. rewrite includes_has_char. cbn [has_char slice].
  change (Ascii.eqb "-" "=") with false. cbn [orb].
  induction arg as [|c arg IH]; [done|]. cbn [has_char split].
  destruct (Ascii.eqb c "=").
  - intros _. destruct (split "=" arg) as [|value pieces] eqn:Hs;
      [by destruct (split_nonempty "=" arg)|]. eauto.
  - intros (key & value & pieces & ->)%IH. eauto.
Qed.

Lemma parseArgs_loop_positional (n : nat) :
  ∀ (args : list string) (result : ParsedArgs),
    (List.length args ≤ n)%nat →
    ∃ kept, positional (parseArgs_loop args result)
            = (positional result ++ kept)%list
            ∧ sublist kept args
            ∧ Forall (λ arg, is_positional arg = true) kept.
Proof.
  induction n as [|n IH]; intros [|arg rest] result Hn; simpl in Hn;
    try lia;
    try (exists []; rewrite List.app_nil_r; repeat split; constructor).
  assert (∀ result',
            positional result' = positional result →
            ∃ kept, positional (parseArgs_loop rest result')
                    = (positional result ++ kept)%list
                    ∧ sublist kept (arg :: rest)
                    ∧ Forall (λ arg, is_positional arg = true) kept) as Hrest.
  { intros result' <-. destruct (IH rest result') as (kept & ? & ? & ?);
      [lia|]. exists kept. split; [done|]. split; [by constructor|done]. }
  assert (∀ nextArg rest' result',
            rest = nextArg :: rest' →
            positional result' = positional result →
            ∃ kept, positional (parseArgs_loop rest' result')
                    = (positional result ++ kept)%list
                    ∧ sublist kept (arg :: rest)
                    ∧ Forall (λ arg, is_positional arg = true) kept) as Hnext.
  { intros nextArg rest' result' -> <-.
    destruct (IH rest' result') as (kept & ? & ? & ?); [simpl in Hn; lia|].
    exists kept. split; [done|]. split; [by do 2 constructor|done]. }
  cbn [parseArgs_loop]. unfold is_positional in *.
  destruct (String.prefix "--" arg) eqn:H2.
  - destruct (includes "=" arg).
    + destruct (split "=" (slice 2 arg)) as [|key [|value pieces]];
        by apply Hrest.
    + destruct rest as [|nextArg rest']; [by apply Hrest|].
      destruct (is_flag_value nextArg); [by eapply Hnext|by apply Hrest].
  - destruct (String.prefix "-" arg && (js_length arg =? 2)%nat) eqn:H1.
    + destruct rest as [|nextArg rest']; [by apply Hrest|].
      destruct (is_flag_value nextArg); [by eapply Hnext|by apply Hrest].
    + destruct (IH rest (push_positional arg result)) as (kept & Hk & ? & ?);
        [lia|].
      exists (arg :: kept). split; [|split].
      * rewrite Hk. cbn [push_positional positional].
        by rewrite <- List.app_assoc.
      * by constructor.
      * constructor; [|done]. by rewrite H2, H1.
Qed.

(** X19.  The positional arguments are arguments of the command line,
    in their order, and none of them has the form of a flag: [parseArgs]
    invents and reorders nothing, and never files a flag as text. *)
Theorem parseArgs_positional (args : list string) :
  sublist (positional (parseArgs args)) args
  ∧ Forall (λ arg, is_positional arg = true) (positional (parseArgs args)).
Proof.
  destruct (parseArgs_loop_positional (List.length args) args
              {| flags := ∅; positional := [] |}) as (kept & Hk & ? & ?);
    [done|].
  unfold parseArgs. rewrite Hk. done.
Qed.

Lemma parseArgs_loop_plain (args : list string) (result : ParsedArgs) :
  Forall (λ arg, String.prefix "-" arg = false) args →
  parseArgs_loop args result
  = {| flags := flags result;
       positional := (positional result ++ args)%list |}.
Proof.
  intros H. revert result.
  induction H as [|arg rest Ha _ IH]; intros result.
  - cbn [parseArgs_loop]. rewrite List.app_nil_r. by destruct result.
  - cbn [parseArgs_loop]. rewrite (prefix_dashes _ Ha), Ha. cbn [andb].
    rewrite IH. cbn [push_positional flags positional].
    by rewrite <- List.app_assoc.
Qed.

(** X20.  Arguments none of which starts with a dash are all
    positional: no flag is set and the texts are kept as they are, in
    their order. *)
Theorem parseArgs_plain (args : list string) :
  Forall (λ arg, String.prefix "-" arg = false) args →
  parseArgs args = {| flags := ∅; positional := args |}.
Proof. intros H. unfold parseArgs. by rewrite parseArgs_loop_plain. Qed.

Lemma parseArgs_plain_witness :
  parseArgs ["Build"; "completed"]
  = {| flags := ∅; positional := ["Build"; "completed"] |}.
Proof.
  apply parseArgs_plain. repeat constructor.
Defined.

(** X21.  A long flag written [--key=value] takes its value from its
    own text and leaves the next argument alone; the value ends at its
    first [=], what follows is dropped. *)
Theorem parseArgs_key_value (key value : string) (rest : list string)
    (result : ParsedArgs) :
  has_char "=" key = false →
  parseArgs_loop (("--" +:+ key +:+ "=" +:+ value) :: rest) result
  = parseArgs_loop rest
      (set_flag key (FlagValue (hd "" (split "=" value))) result)
  ∧ has_char "=" (hd "" (split "=" value)) = false
  ∧ ∀ value' tail,
      has_char "=" value' = false →
      value = value' +:+ "=" +:+ tail →
      hd "" (split "=" value) = value'.
Proof.
  intros Hk. split; [|split].
  - cbn [parseArgs_loop]. rewrite prefix_app.
    rewrite includes_has_char, !has_char_app, orb_true_r.
    change (slice 2 ("--" +:+ key +:+ "=" +:+ value))
      with (key +:+ "=" +:+ value).
    change ("=" +:+ value) with (String "=" value).
    destruct (split_app "=" key value Hk) as [_ ->].
    destruct (split "=" value) as [|piece pieces] eqn:Hs;
      [by destruct (split_nonempty "=" value)|]. done.
  - clear Hk. induction value as [|a value IH]; [done|]. cbn [split].
    destruct (Ascii.eqb a "=") eqn:Ha; [done|].
    destruct (split "=" value) as [|piece pieces];
      cbn [hd has_char] in *; by rewrite Ha.
  - intros value' tail Hv ->.
    change ("=" +:+ tail) with (String "=" tail).
    destruct (split_app "=" value' tail Hv) as [_ ->]. done.
Qed.

Lemma parseArgs_key_value_witness :
  parseArgs ["--title=a=b"; "hello"]
  = {| flags := {[ "title" := FlagValue "a" ]}; positional := ["hello"] |}.
Proof.
  unfold parseArgs.
  destruct (parseArgs_key_value "title" "a=b" ["hello"]
              {| flags := ∅; positional := [] |}) as [H _]; [reflexivity|].
  change ("--title=a=b") with ("--" +:+ "title" +:+ "=" +:+ "a=b").
  rewrite H. vm_compute. reflexivity.
Defined.

(** ** CLI main logic *)

Lemma validStatuses_status_kinds : validStatuses = status_kinds.
Proof. reflexivity. Qed.

Lemma flag_or_else_truthy (a : option flag) (d : string) :
  truthy_flag a = true ∨ truthy_string d = true →
  truthy_flag (Some (flag_or_else a d)) = true.
Proof.
  unfold flag_or_else. destruct a as [v|]; [|by intros [|]].
  destruct (truthy_flag (Some v)) eqn:Hv; [done|by intros [|]].
Qed.

Lemma is_valid_status_true (status : flag) :
  is_valid_status status = true →
  ∃ s style, status = FlagValue s ∧ s ∈ validStatuses
             ∧ STATUS_STYLES !! s = Some style.
Proof.
  destruct status as [|s]; [done|]. cbn [is_valid_status].
  intros Hs%bool_decide_eq_true. pose proof Hs as Hin.
  unfold validStatuses in Hs. rewrite !elem_of_cons, elem_of_nil in Hs.
  destruct Hs as [->|[->|[->|[->|[->|[]]]]]]; eexists _, _;
    (split; [reflexivity|split; [exact Hin|vm_compute; reflexivity]]).
Qed.

(** X22.  Whenever [main] goes on to call [pushProgress], the status
    it passes is one of the five status kinds, so the style lookup
    finds an own entry of [STATUS_STYLES]; the task name is not empty
    and the platform in the options is not empty. *)
Theorem main_plan_progress (parsed : ParsedArgs) (taskName status details : flag)
    (options : cli_options) :
  main_plan parsed = SendProgress taskName status details options →
  (∃ s style,
     status = FlagValue s ∧ s ∈ status_kinds
     ∧ STATUS_STYLES !! s = Some style ∧ style_for s = Own style)
  ∧ truthy_flag (Some taskName) = true
  ∧ truthy_flag (Some (cli_platform options)) = true.
Proof.
  unfold main_plan.
  destruct (truthy_flag (flag_or (flags parsed !! "h") _)); [done|].
  destruct (truthy_flag (flags parsed !! "version")); [done|].
  destruct (truthy_flag (flags parsed !! "check")); [done|].
  destruct (truthy_flag (flag_or (flags parsed !! "t") _)) eqn:Ht;
    [|by destruct (negb _)].
  destruct (truthy_flag (flag_or (flags parsed !! "s") _)); [|done].
  cbn [negb].
  destruct (is_valid_status _) eqn:Hv; [|done]. cbn [negb].
  intros [= <- <- <- <-].
  apply is_valid_status_true in Hv as (s & style & -> & Hs & Hl).
  split; [|split].
  - exists s, style. rewrite <- validStatuses_status_kinds.
    split; [done|]. split; [done|]. split; [done|].
    by apply STATUS_STYLES_Some.
  - apply flag_or_else_truthy. by left.
  - apply flag_or_else_truthy. by right.
Qed.

(** X23.  Whenever [main] goes on to call [push], the message is the
    positional arguments joined by single spaces, it is not empty, and
    the platform in the options is not empty. *)
Theorem main_plan_message (parsed : ParsedArgs) (message : string)
    (options : cli_options) :
  main_plan parsed = SendMessage message options →
  message = String.concat " " (positional parsed)
  ∧ message ≠ ""
  ∧ truthy_flag (Some (cli_platform options)) = true.
Proof.
  unfold main_plan.
  destruct (truthy_flag (flag_or (flags parsed !! "h") _)); [done|].
  destruct (truthy_flag (flags parsed !! "version")); [done|].
  destruct (truthy_flag (flags parsed !! "check")); [done|].
  destruct (truthy_flag (flag_or (flags parsed !! "t") _)).
  { destruct (negb _); [done|]. by destruct (negb _). }
  destruct (truthy_string (String.concat " " (positional parsed))) eqn:Hm;
    [|done].
  cbn [negb]. intros [= <- <-]. split; [done|]. split.
  - by apply truthy_string_true.
  - apply flag_or_else_truthy. by right.
Qed.

(** A short flag followed by a text that can be its value. *)
Lemma parseArgs_loop_short_flag (arg nextArg : string) (rest : list string)
    (result : ParsedArgs) :
  String.prefix "--" arg = false →
  String.prefix "-" arg && (js_length arg =? 2)%nat = true →
  is_flag_value nextArg = true →
  parseArgs_loop (arg :: nextArg :: rest) result
  = parseArgs_loop rest (set_flag (slice 1 arg) (FlagValue nextArg) result).
Proof. intros H2 H1 Hv. cbn [parseArgs_loop]. by rewrite H2, H1, Hv. Qed.

Lemma is_flag_value_truthy (value : string) :
  is_flag_value value = true → truthy_string value = true.
Proof. unfold is_flag_value. by intros [? _]%andb_true_iff. Qed.

(** X24.  The command line [-p platform -t task -s status -d details],
    each value a non-empty text that does not start with a dash: with
    a status among the five kinds [main] calls [pushProgress] with
    exactly these four texts and no title; with any other status it
    reports the invalid status and sends nothing. *)
Theorem main_progress_command (platform task status details : string) :
  is_flag_value platform = true → is_flag_value task = true →
  is_flag_value status = true → is_flag_value details = true →
  main_plan
    (parseArgs ["-p"; platform; "-t"; task; "-s"; status; "-d"; details])
  = if bool_decide (status ∈ validStatuses)
    then SendProgress (FlagValue task) (FlagValue status) (FlagValue details)
           {| cli_platform := FlagValue platform; cli_title := None |}
    else InvalidStatus (FlagValue status).
Proof.
  intros Hp Ht Hs Hd. unfold parseArgs.
  rewrite !parseArgs_loop_short_flag by (done || reflexivity).
  cbn [parseArgs_loop slice]. unfold set_flag.
  cbn [String.eqb Ascii.eqb Bool.eqb flags positional].
  apply is_flag_value_truthy in Hp, Ht, Hs, Hd.
  unfold main_plan. cbn [flags positional].
  repeat match goal with
         | |- context [@lookup string flag _ _ ?k ?m] =>
             let v := eval vm_compute in (m !! k) in
             replace (m !! k) with v by (vm_compute; reflexivity)
         end.
  unfold flag_or, flag_or_else. cbn [truthy_flag].
  rewrite ?Hp, ?Ht, ?Hs, ?Hd. cbn [truthy_flag].
  rewrite ?Hp, ?Ht, ?Hs, ?Hd. cbn [negb is_valid_status].
  by destruct (bool_decide (status ∈ validStatuses)).
Qed.

Lemma main_progress_command_witness :
  main_plan
    (parseArgs [ "-p"; "slack"; "-t"; "Deploy"; "-s"; "in_progress"; "-d";
                 "Deploying to production..." ])
  = SendProgress (FlagValue "Deploy") (FlagValue "in_progress")
      (FlagValue "Deploying to production...")
      {| cli_platform := FlagValue "slack"; cli_title := None |}.
Proof.
  rewrite (main_progress_command "slack" "Deploy" "in_progress"
             "Deploying to production...");
    reflexivity.
Defined.

Lemma main_plan_progress_witness :
  truthy_flag (Some (FlagValue "Deploy")) = true.
Proof.
  destruct (main_plan_progress
              (parseArgs [ "-t"; "Deploy"; "-s"; "started" ])
              (FlagValue "Deploy") (FlagValue "started") (FlagValue "")
              {| cli_platform := FlagValue "wecom"; cli_title := None |})
    as (_ & H & _); [vm_compute; reflexivity|exact H].
Defined.

(** X25.  Plain words on the command line, none starting with a dash
    and not all empty, are sent as one message, the words joined by
    single spaces, to the default platform [wecom] without a title. *)
Theorem main_message_command (args : list string) :
  Forall (λ arg, String.prefix "-" arg = false) args →
  String.concat " " args ≠ "" →
  main_plan (parseArgs args)
  = SendMessage (String.concat " " args)
      {| cli_platform := FlagValue "wecom"; cli_title := None |}.
Proof.
  intros Ha Hm%truthy_string_true. unfold parseArgs.
  rewrite (parseArgs_loop_plain args _ Ha). unfold main_plan.
  cbn [flags positional app]. rewrite !lookup_empty.
  unfold flag_or, flag_or_else. cbn [truthy_flag]. by rewrite Hm.
Qed.

Lemma main_message_command_witness :
  main_plan (parseArgs ["Build"; "completed"])
  = SendMessage "Build completed"
      {| cli_platform := FlagValue "wecom"; cli_title := None |}.
Proof.
  apply (main_message_command ["Build"; "completed"]).
  - repeat constructor.
  - discriminate.
Defined.

Lemma main_plan_message_witness :
  "Build completed" ≠ "".
Proof.
  destruct (main_plan_message (parseArgs ["Build"; "completed"])
              "Build completed"
              {| cli_platform := FlagValue "wecom"; cli_title := None |})
    as (_ & H & _); [vm_compute; reflexivity|exact H].
Defined.
